(** * Entity reconciliation and polling manager of the Shinobi integration

    A shallow embedding of
      - [core/managers/entity_manager.py]  (class [EntityManager])
      - [core/managers/home_assistant.py]  (class [HomeAssistantManager])
      - [helpers/__init__.py]              ([clear_ha], [get_ha], [async_set_ha])
      - [camera.py]                        ([async_camera_image])
    together with the statements proved about them.

    Python objects are modelled by value.  The only objects that are mutated
    after they became reachable from a container are the [EntityData] records
    held by [EntityManager.entities]; every such record is reached through the
    key it is read under ([self.entities.get(k)]), so an assignment to one of
    its attributes is written back to the mapping under that key at the point
    where the Python code performs it. *)

From stdpp Require Import base option strings list gmap.

(** ** Python values *)

(** The values that flow through [state], [device_name] and the attribute
    dictionaries.  On these constructors Python's [==] is structural equality
    (numbers are left out: [True == 1] would break that). *)
Inductive pyval : Type :=
| PyNone
| PyBool (b : bool)
| PyStr (s : string).

#[global] Instance pyval_eq_dec : EqDecision pyval.
Proof. solve_decision. Defined.

(** A dictionary that is only compared and stored: Python's [==] on [dict] is
    independent of insertion order, as is equality of [gmap]. *)
Abbreviation attrs := (gmap string pyval).

(** ** Insertion-ordered dictionaries

    [EntityManager.entities] and [domain_component_manager] are iterated, so
    their order is kept: a list of pairs without repeated keys, in insertion
    order. *)
Module PyDict.
Section PyDict.
Context {V : Type}.

Definition t := list (string * V).

Definition keys (d : t) : list string := d.*1.

(** [d.get(k)] *)
Fixpoint get (k : string) (d : t) : option V :=
  match d with
  | [] => None
  | (k', v) :: r => if decide (k = k') then Some v else get k r
  end.

(** [d[k] = v]: an existing key keeps its position, a new key goes last. *)
Fixpoint set (k : string) (v : V) (d : t) : t :=
  match d with
  | [] => [(k, v)]
  | (k', v') :: r =>
      if decide (k = k') then (k, v) :: r else (k', v') :: set k v r
  end.

(** [del d[k]]; [None] stands for [KeyError]. *)
Fixpoint del (k : string) (d : t) : option t :=
  match d with
  | [] => None
  | (k', v') :: r =>
      if decide (k = k') then Some r
      else cons (k', v') <$> del k r
  end.

End PyDict.
Arguments t : clear implicits.
End PyDict.

Abbreviation pydict := PyDict.t.

(** ** Exceptions, and computations over a mutable state

    Every exception of [exn] is a subclass of Python's [Exception].  A raised
    exception leaves the state as it was at the raise: assignments made
    before it are kept. *)
Inductive exn : Type :=
| AttributeError (msg : string)
| KeyError (k : string)
| RuntimeError (msg : string)
| TypeError (msg : string)
| HostError (msg : string).

(** A coroutine that awaits code of the host or of the component can also be
    left by [asyncio.CancelledError], which the event loop throws into it at
    the [await] when its task is cancelled.  That class derives from
    [BaseException] and not from [Exception]: [except Exception] does not
    catch it. *)
Inductive BaseException : Type :=
| Exception (e : exn)
| CancelledError.

Coercion Exception : exn >-> BaseException.

Inductive outcome (E A : Type) : Type :=
| Ok (a : A)
| Raise (e : E).
Arguments Ok {E A} a.
Arguments Raise {E A} & e.

(** What a call gives that can only raise an [Exception]. *)
Abbreviation result := (outcome exn).

(** [M]: the methods of the entity manager and the helpers, none of which
    awaits foreign code.  [Co]: the methods of [HomeAssistantManager], which
    run in the event loop and await the overridable methods. *)
Definition M (S A : Type) : Type := S → result A * S.
Definition Co (S A : Type) : Type := S → outcome BaseException A * S.

Definition ret {E S A} (a : A) : S → outcome E A * S := λ s, (Ok a, s).

Definition bind {E S A B} (c : S → outcome E A * S)
    (k : A → S → outcome E B * S) : S → outcome E B * S :=
  λ s, match c s with
       | (Ok a, s') => k a s'
       | (Raise e, s') => (Raise e, s')
       end.

Definition raise {E S A} (e : E) : S → outcome E A * S := λ s, (Raise e, s).

Definition get_state {E S} : S → outcome E S * S := λ s, (Ok s, s).

Definition modify {E S} (f : S → S) : S → outcome E unit * S :=
  λ s, (Ok tt, f s).

(** A pure call that may raise. *)
Definition lift {E S A} (r : outcome E A) : S → outcome E A * S := λ s, (r, s).

(** [try: body  except Exception as ex: handler(ex)], where the body can
    only raise an [Exception]. *)
Definition try_except {S A} (body : M S A) (handler : exn → M S A) : M S A :=
  λ s, match body s with
       | (Ok a, s') => (Ok a, s')
       | (Raise e, s') => handler e s'
       end.

(** [try: body  except Exception as ex: handler(ex)] in a coroutine: a
    cancellation passes through. *)
Definition try_except_Exception {S A} (body : Co S A) (handler : exn → Co S A)
  : Co S A :=
  λ s, match body s with
       | (Ok a, s') => (Ok a, s')
       | (Raise (Exception e), s') => handler e s'
       | (Raise CancelledError, s') => (Raise CancelledError, s')
       end.

(** The outcome of a call that awaits nothing, seen from a coroutine. *)
Definition as_base {A} (r : result A) : outcome BaseException A :=
  match r with
  | Ok a => Ok a
  | Raise e => Raise (Exception e)
  end.

Notation "'let*' x ':=' c 'in' k" := (bind c (λ x, k))
  (at level 10, x name, c at level 100, k at level 200).
Notation "c ';;' k" := (bind c (λ _, k))
  (at level 100, k at level 200, right associativity).

(** ** Data model *)

(** Modelled from the spec: [core/helpers/enums.py] is not part of the
    sources; the entity manager "marks entities CREATED / UPDATED / READY /
    DELETED". *)
Inductive EntityStatus : Type :=
| READY
| CREATED
| DELETED
| UPDATED.

#[global] Instance EntityStatus_eq_dec : EqDecision EntityStatus.
Proof. solve_decision. Defined.

(** The host's [EntityDescription]: a frozen dataclass, compared field by
    field.  [key] and [name] are the fields the managers read. *)
Record EntityDescription : Type := {
  key : string;
  name : string;
  icon : option string;
}.

#[global] Instance EntityDescription_eq_dec : EqDecision EntityDescription.
Proof. solve_decision. Defined.

(** Modelled from the spec: [core/models/entity_data.py] is not part of the
    sources.  The fields are the attributes the managers read and assign; the
    mapping is "keyed by the entity's unique identifier (the entity
    description's key)", which is what the property [id] returns, and [name]
    is the description's name. *)
Record EntityData : Type := {
  entry_id : string;
  entity_description : EntityDescription;
  state : pyval;
  attributes : attrs;
  details : option attrs;
  device_name : pyval;
  status : EntityStatus;
  disabled : bool;
  domain : option string;
}.

#[global] Instance EntityData_eq_dec : EqDecision EntityData.
Proof. solve_decision. Defined.

(** [EntityData(entry_id, entity_description)].  The values a new record
    starts with are not visible in the sources: it is taken to have no state
    and no device name, empty attributes and details, no domain, and to be
    enabled.  [set_entity] assigns all of them but [disabled] before the
    record is stored. *)
Definition EntityData_init (entry_id : string) (d : EntityDescription)
  : EntityData :=
  {| entry_id := entry_id; entity_description := d; state := PyNone;
     attributes := ∅; details := Some ∅; device_name := PyNone;
     status := CREATED; disabled := false; domain := None |}.

Definition id (e : EntityData) : string := key (entity_description e).
Definition entity_name (e : EntityData) : string := name (entity_description e).

Definition with_status (s : EntityStatus) (e : EntityData) : EntityData :=
  {| entry_id := entry_id e; entity_description := entity_description e;
     state := state e; attributes := attributes e; details := details e;
     device_name := device_name e; status := s; disabled := disabled e;
     domain := domain e |}.

Definition with_domain (dom : option string) (e : EntityData) : EntityData :=
  {| entry_id := entry_id e; entity_description := entity_description e;
     state := state e; attributes := attributes e; details := details e;
     device_name := device_name e; status := status e; disabled := disabled e;
     domain := dom |}.

Definition with_disabled (b : bool) (e : EntityData) : EntityData :=
  {| entry_id := entry_id e; entity_description := entity_description e;
     state := state e; attributes := attributes e; details := details e;
     device_name := device_name e; status := status e; disabled := b;
     domain := domain e |}.

(** The four assignments of [set_entity], lines 246-249. *)
Definition with_values (st : pyval) (at_ : attrs) (dn : pyval)
    (dt : option attrs) (e : EntityData) : EntityData :=
  {| entry_id := entry_id e; entity_description := entity_description e;
     state := st; attributes := at_; details := dt;
     device_name := dn; status := status e; disabled := disabled e;
     domain := domain e |}.

(** *** The host: entity registry, state machine, scheduler, logger *)

Record RegistryEntry : Type := {
  re_entity_id : string;
  re_domain : string;
  re_platform : string;
  re_unique_id : string;
  re_disabled : bool;
}.

Definition EntityRegistry := list RegistryEntry.

(** What a platform's initializer builds from an entity. *)
Record Component : Type := {
  comp_unique_id : string;
  comp_name : string;
  comp_entity_id : option string;
}.

Definition with_entity_id (eid : option string) (c : Component) : Component :=
  {| comp_unique_id := comp_unique_id c; comp_name := comp_name c;
     comp_entity_id := eid |}.

(** The host's [ConfigEntry], as far as the managers read it. *)
Record ConfigEntry : Type := {
  ce_entry_id : string;
  ce_title : string;
}.

(** One line of a [_compare_data] message. *)
Inductive Change : Type :=
| StateChange (from to : pyval)
| AttributesChange (from to : gmap string string)
| DeviceNameChange (from to : pyval)
| DescriptionChange (from to : EntityDescription)
| DetailsChange (from to : gmap string string).

(** The records handed to [_LOGGER], by call site. *)
Inductive LogRecord : Type :=
| DebugCompare (nm : string) (dom : option string) (msgs : list Change)
| DebugIgnored (nm : string)
| InfoEntity (nm : string) (dom : option string) (st : EntityStatus) (v : pyval)
| InfoDisabling (e : EntityData)
| DebugRestored (eid : string) (nm : string)
| InfoComponentsCreated (n : nat) (dom : string)
| InfoRemoved (eid : option string) (nm : string)
| InfoComponentsDeleted (n : nat)
| DebugStartUpdate
| ErrorAddComponent (ex : exn)
| ErrorUpdate (ex : exn)
| InfoNotInitialized (event_time : Z)
| DebugSkipUpdating (event_time : Z)
| DebugUpdating (event_time : Z)
| ErrorAsyncUpdate (ex : exn)
| InfoNotInitializedDispatch
| InfoEntryLoad (entry : ConfigEntry)
| InfoEntryChange (entry : ConfigEntry)
| InfoStopped.

(** Coroutines handed to [hass.async_create_task]. *)
Inductive Task : Type :=
| TaskEntityManagerUpdate
| TaskDispatchAll
| TaskAsyncUpdate (now : Z)
| TaskSendHeartbeat.

(** Callbacks handed to [async_track_time_interval]. *)
Inductive Callback : Type :=
| CbUpdateEntities
| CbSendHeartbeat.

#[global] Instance Callback_eq_dec : EqDecision Callback.
Proof. solve_decision. Defined.

(** Calls made into platform code. *)
Inductive Call : Type :=
| CallInitializer (dom : string) (unique_id : string)
| CallAddDevices (dom : string) (components : list Component).

(** [hass].  [time_listeners] holds the live registrations of
    [async_track_time_interval], each under the handle that its remove
    callback stands for; [intervals] are [timedelta]s in seconds. *)
Record HomeAssistant : Type := {
  registry : EntityRegistry;
  states : gmap string attrs;
  log : list LogRecord;
  tasks : list Task;
  time_listeners : list (nat * (Callback * Z));
  next_listener : nat;
  signals : list string;
  calls : list Call;
}.

Definition with_registry (r : EntityRegistry) (h : HomeAssistant) : HomeAssistant :=
  {| registry := r; states := states h; log := log h; tasks := tasks h;
     time_listeners := time_listeners h; next_listener := next_listener h;
     signals := signals h; calls := calls h |}.

Definition with_log (l : list LogRecord) (h : HomeAssistant) : HomeAssistant :=
  {| registry := registry h; states := states h; log := l; tasks := tasks h;
     time_listeners := time_listeners h; next_listener := next_listener h;
     signals := signals h; calls := calls h |}.

Definition with_tasks (t : list Task) (h : HomeAssistant) : HomeAssistant :=
  {| registry := registry h; states := states h; log := log h; tasks := t;
     time_listeners := time_listeners h; next_listener := next_listener h;
     signals := signals h; calls := calls h |}.

Definition with_time_listeners (l : list (nat * (Callback * Z))) (n : nat)
    (h : HomeAssistant) : HomeAssistant :=
  {| registry := registry h; states := states h; log := log h; tasks := tasks h;
     time_listeners := l; next_listener := n;
     signals := signals h; calls := calls h |}.

Definition with_signals (l : list string) (h : HomeAssistant) : HomeAssistant :=
  {| registry := registry h; states := states h; log := log h; tasks := tasks h;
     time_listeners := time_listeners h; next_listener := next_listener h;
     signals := l; calls := calls h |}.

Definition with_calls (l : list Call) (h : HomeAssistant) : HomeAssistant :=
  {| registry := registry h; states := states h; log := log h; tasks := tasks h;
     time_listeners := time_listeners h; next_listener := next_listener h;
     signals := signals h; calls := l |}.

(** [hass] as the host hands it over: nothing registered, nothing logged. *)
Definition HomeAssistant_init : HomeAssistant :=
  {| registry := []; states := ∅; log := []; tasks := [];
     time_listeners := []; next_listener := 0; signals := []; calls := [] |}.

(** *** The host's entity registry *)

(** [EntityRegistry.async_get_entity_id(domain, platform, unique_id)] *)
Definition async_get_entity_id (dom : option string) (platform unique_id : string)
    (reg : EntityRegistry) : option string :=
  re_entity_id <$>
    List.find (λ e, bool_decide (Some (re_domain e) = dom
                                 ∧ re_platform e = platform
                                 ∧ re_unique_id e = unique_id)) reg.

(** [EntityRegistry.async_get(entity_id)]; an unknown id, or [None], gives
    [None]. *)
Definition async_get (entity_id : option string) (reg : EntityRegistry)
  : option RegistryEntry :=
  eid ← entity_id;
  List.find (λ e, bool_decide (re_entity_id e = eid)) reg.

(** [EntityRegistry.async_update_entity(entity_id, disabled_by=INTEGRATION)] *)
Definition async_update_entity_disabled (eid : string) (reg : EntityRegistry)
  : EntityRegistry :=
  (λ e, if decide (re_entity_id e = eid)
        then {| re_entity_id := re_entity_id e; re_domain := re_domain e;
                re_platform := re_platform e; re_unique_id := re_unique_id e;
                re_disabled := true |}
        else e) <$> reg.

(** [EntityRegistry.async_remove(entity_id)] *)
Definition async_remove (eid : string) (reg : EntityRegistry) : EntityRegistry :=
  filter (λ e, re_entity_id e ≠ eid) reg.

(** Python's truth value of an object. *)
Definition truthy (v : pyval) : bool :=
  match v with
  | PyNone => false
  | PyBool b => b
  | PyStr s => negb (bool_decide (s = ""))
  end.

(** [str(value)] *)
Definition str (v : pyval) : string :=
  match v with
  | PyNone => "None"
  | PyBool true => "True"
  | PyBool false => "False"
  | PyStr s => s
  end.

(** ** The entity manager *)

(** Modelled from the spec: [core/models/domain_data.py] is not part of the
    sources.  A platform registers its name, the initializer that builds a
    component from an entity, and the host's [async_add_devices] callback;
    both callbacks are platform code and may raise. *)
Record DomainData : Type := {
  dd_name : string;
  initializer : HomeAssistant → EntityData → result Component;
  async_add_devices : list Component → result unit;
}.

(** Modelled from the spec: [core/helpers/const.py] is not part of the
    sources; [DOMAIN] is the integration's name. *)
Definition DOMAIN : string := "shinobi".

(** The attributes of [EntityManager].  [hass] is the object that the
    owning [HomeAssistantManager] holds as [_hass]; [entity_registry] is read
    through it. *)
Record EntityManager : Type := {
  hass : HomeAssistant;
  domain_component_manager : pydict DomainData;
  entities : pydict EntityData;
}.

Definition with_hass (h : HomeAssistant) (em : EntityManager) : EntityManager :=
  {| hass := h; domain_component_manager := domain_component_manager em;
     entities := entities em |}.

Definition with_domains (d : pydict DomainData) (em : EntityManager)
  : EntityManager :=
  {| hass := hass em; domain_component_manager := d; entities := entities em |}.

Definition with_entities (d : pydict EntityData) (em : EntityManager)
  : EntityManager :=
  {| hass := hass em; domain_component_manager := domain_component_manager em;
     entities := d |}.

(** [EntityManager(hass, ha)] *)
Definition EntityManager_init (h : HomeAssistant) : EntityManager :=
  {| hass := h; domain_component_manager := []; entities := [] |}.

Definition entity_registry (em : EntityManager) : EntityRegistry :=
  registry (hass em).

Definition available_domains (em : EntityManager) : list string :=
  PyDict.keys (domain_component_manager em).

(** [_LOGGER.<level>(...)] *)
Definition logger (r : LogRecord) : M EntityManager unit :=
  modify (λ em, with_hass (with_log (log (hass em) ++ [r]) (hass em)) em).

Definition set_registry (r : EntityRegistry) : M EntityManager unit :=
  modify (λ em, with_hass (with_registry r (hass em)) em).

Definition record_call (c : Call) : M EntityManager unit :=
  modify (λ em, with_hass (with_calls (calls (hass em) ++ [c]) (hass em)) em).

(** An attribute assignment [entity.<field> = v] on the record that
    [self.entities] holds under [unique_id]. *)
Definition assign (unique_id : string) (f : EntityData → EntityData)
  : M EntityManager unit :=
  modify (λ em,
    match PyDict.get unique_id (entities em) with
    | Some e => with_entities (PyDict.set unique_id (f e) (entities em)) em
    | None => em
    end).

Definition set_domain_data (domain_data : DomainData) : M EntityManager unit :=
  modify (λ em,
    with_domains
      (PyDict.set (dd_name domain_data) domain_data (domain_component_manager em))
      em).

Definition get_domain_data (dom : string) : M EntityManager DomainData :=
  let* em := get_state in
  match PyDict.get dom (domain_component_manager em) with
  | Some domain_data => ret domain_data
  | None => raise (KeyError dom)
  end.

(** [update]: the pass itself runs later, as a task of the event loop. *)
Definition update : M EntityManager unit :=
  modify (λ em,
    with_hass (with_tasks (tasks (hass em) ++ [TaskEntityManagerUpdate]) (hass em))
      em).

(** [_handle_disabled_entity(entity_id, entity)], where [entity] is the record
    held under [unique_id]. *)
Definition _handle_disabled_entity (entity_id : option string)
    (unique_id : string) (entity : EntityData) : M EntityManager unit :=
  let* em := get_state in
  match async_get entity_id (entity_registry em), entity_id with
  | Some entity_item, Some eid =>
      if disabled entity then
        logger (InfoDisabling entity);;
        set_registry (async_update_entity_disabled eid (entity_registry em))
      else
        assign unique_id (with_disabled (re_disabled entity_item))
  | _, _ => ret tt
  end.

(** [_handle_restored_entity(entity_id, component)]; the component, assigned
    to in place by the Python code, is returned. *)
Definition _handle_restored_entity (entity_id : option string)
    (component : Component) : M EntityManager Component :=
  match entity_id with
  | Some eid =>
      let component := with_entity_id (Some eid) component in
      let* em := get_state in
      match states (hass em) !! eid with
      | Some state_attributes =>
          let restored :=
            default (PyBool false) (state_attributes !! "restored") in
          if truthy restored then
            logger (DebugRestored eid (comp_name component));;
            ret component
          else ret component
      | None => ret component
      end
  | None => ret component
  end.

(** [for unique_id in self.entities: body].  The dictionary iterator compares
    the dictionary's size with the size it saw when the loop started, before
    every step including the one that would end the loop, and raises
    [RuntimeError] when they differ.  As long as they agree no key was added
    or removed by the bodies below, so the keys still to visit are those of
    the start. *)
Fixpoint for_unique_id {A} (di_used : nat) (ks : list string)
    (body : string → A → M EntityManager A) (acc : A) : M EntityManager A :=
  λ em,
    if decide (length (entities em) = di_used) then
      match ks with
      | [] => (Ok acc, em)
      | k :: ks' => bind (body k acc) (for_unique_id di_used ks' body) em
      end
    else (Raise (RuntimeError "dictionary changed size during iteration"), em).

Definition for_in_entities {A} (body : string → A → M EntityManager A) (acc : A)
  : M EntityManager A :=
  λ em,
    for_unique_id (length (entities em)) (PyDict.keys (entities em)) body acc em.

Fixpoint for_each {E S A} (l : list A) (body : A → S → outcome E unit * S)
  : S → outcome E unit * S :=
  match l with
  | [] => ret tt
  | x :: r => body x;; for_each r body
  end.

(** The body of the first loop of [_async_add_components], lines 81-100;
    [components] is the local dictionary of the components built so far. *)
Definition add_component (unique_id : string)
    (components : pydict (list Component))
  : M EntityManager (pydict (list Component)) :=
  let* em := get_state in
  match PyDict.get unique_id (entities em) with
  | None => raise (AttributeError "'NoneType' object has no attribute 'status'")
  | Some entity =>
      if decide (status entity = CREATED) then
        let entity_id :=
          async_get_entity_id (domain entity) DOMAIN unique_id
            (entity_registry em) in
        _handle_disabled_entity entity_id unique_id entity;;
        let* em := get_state in
        let entity := default entity (PyDict.get unique_id (entities em)) in
        match dom ← domain entity;
              pair dom <$> PyDict.get dom (domain_component_manager em) with
        | None =>
            raise (AttributeError
                     "'NoneType' object has no attribute 'initializer'")
        | Some (dom, domain_manager) =>
            record_call (CallInitializer dom unique_id);;
            let* component :=
              lift (initializer domain_manager (hass em) entity) in
            let* component := _handle_restored_entity entity_id component in
            let domain_components :=
              default [] (PyDict.get dom components) ++ [component] in
            let components := PyDict.set dom domain_components components in
            assign unique_id (with_status READY);;
            ret components
        end
      else ret components
  end.

(** The body of the second loop, lines 103-111. *)
Definition add_devices (components : pydict (list Component)) (dom : string)
  : M EntityManager unit :=
  let* em := get_state in
  match PyDict.get dom (domain_component_manager em) with
  | None =>
      raise (AttributeError
               "'NoneType' object has no attribute 'async_add_devices'")
  | Some domain_manager =>
      let domain_components := default [] (PyDict.get dom components) in
      let components_count := length domain_components in
      if decide (0 < components_count) then
        record_call (CallAddDevices dom domain_components);;
        lift (async_add_devices domain_manager domain_components);;
        logger (InfoComponentsCreated components_count dom)
      else ret tt
  end.

(** The [try] block of [_async_add_components], lines 79-111. *)
Definition _async_add_components_body : M EntityManager unit :=
  let* components := for_in_entities add_component [] in
  let* em := get_state in
  for_each (PyDict.keys (domain_component_manager em)) (add_devices components).

Definition _async_add_components : M EntityManager unit :=
  try_except _async_add_components_body
    (λ ex, logger (ErrorAddComponent ex)).

(** The body of the loop of [_async_delete_components], lines 126-142. *)
Definition delete_component (unique_id : string) (deleted : nat)
  : M EntityManager nat :=
  let* em := get_state in
  match PyDict.get unique_id (entities em) with
  | None => raise (AttributeError "'NoneType' object has no attribute 'status'")
  | Some entity =>
      if decide (status entity = DELETED) then
        let entity_id :=
          async_get_entity_id (domain entity) DOMAIN unique_id
            (entity_registry em) in
        match async_get entity_id (entity_registry em), entity_id with
        | Some entity_item, Some eid =>
            logger (InfoRemoved entity_id (entity_name entity));;
            set_registry (async_remove eid (entity_registry em))
        | _, _ => ret tt
        end;;
        let* em := get_state in
        match PyDict.del (id entity) (entities em) with
        | None => raise (KeyError (id entity))
        | Some entities' =>
            modify (with_entities entities');;
            ret (deleted + 1)
        end
      else ret deleted
  end.

Definition _async_delete_components : M EntityManager unit :=
  let* deleted := for_in_entities delete_component 0 in
  if decide (0 < deleted) then logger (InfoComponentsDeleted deleted)
  else ret tt.

(** The reconciliation pass. *)
Definition _async_update : M EntityManager unit :=
  logger DebugStartUpdate;;
  try_except
    (_async_add_components;;
     _async_delete_components)
    (λ ex, logger (ErrorUpdate ex)).

(** [_get_attributes_json]: the values are passed through [str]; the JSON
    text of the result is not modelled further.  Iterating [None] raises. *)
Definition _get_attributes_json (attributes : option attrs)
  : result (gmap string string) :=
  match attributes with
  | None => Raise (TypeError "'NoneType' object is not iterable")
  | Some a => Ok (str <$> a)
  end.

Definition _compare_data (entity : EntityData) (state' : pyval)
    (attributes' : attrs) (device_name' : pyval)
    (entity_description' : option EntityDescription)
    (details' : option attrs) : M EntityManager bool :=
  let msgs : list Change := [] in
  let msgs :=
    if decide (state entity ≠ state')
    then msgs ++ [StateChange (state entity) state'] else msgs in
  let* msgs :=
    if decide (attributes entity ≠ attributes') then
      let* from_attributes :=
        lift (_get_attributes_json (Some (attributes entity))) in
      let* to_attributes := lift (_get_attributes_json (Some attributes')) in
      ret (msgs ++ [AttributesChange from_attributes to_attributes])
    else ret msgs in
  let msgs :=
    if decide (device_name entity ≠ device_name')
    then msgs ++ [DeviceNameChange (device_name entity) device_name']
    else msgs in
  let msgs :=
    match entity_description' with
    | Some d =>
        if decide (entity_description entity ≠ d)
        then msgs ++ [DescriptionChange (entity_description entity) d]
        else msgs
    | None => msgs
    end in
  let* msgs :=
    match details' with
    | Some dt =>
        if decide (details entity ≠ Some dt) then
          let* from_details := lift (_get_attributes_json (details entity)) in
          let* to_details := lift (_get_attributes_json (Some dt)) in
          ret (msgs ++ [DetailsChange from_details to_details])
        else ret msgs
    | None => ret msgs
    end in
  let modified := bool_decide (0 < length msgs) in
  (if modified
   then logger (DebugCompare (entity_name entity) (domain entity) msgs)
   else ret tt);;
  ret modified.

(** [get(unique_id)] *)
Definition get (unique_id : string) (em : EntityManager) : option EntityData :=
  PyDict.get unique_id (entities em).

(** [destructors is not None and True in destructors] *)
Definition has_true (destructors : option (list bool)) : bool :=
  match destructors with
  | Some l => bool_decide (true ∈ l)
  | None => false
  end.

(** An attribute assignment on the local [entity] of [set_entity].  When the
    record was read from the mapping ([held]) it is the mapping's record that
    is assigned to. *)
Definition assign_entity (held : bool) (k : string)
    (f : EntityData → EntityData) (entity : EntityData)
  : M EntityManager EntityData :=
  (if held then assign k f else ret tt);;
  ret (f entity).

(** [set_entity], lines 230-256: the value of the local [entity] when line
    258 is reached. *)
Definition set_entity_resolve (domain' entry_id' : string) (state' : pyval)
    (attributes' : attrs) (device_name' : pyval) (d : EntityDescription)
    (details' : option attrs) (destructors : option (list bool))
  : M EntityManager (option EntityData) :=
  let* em := get_state in
  let held := bool_decide (is_Some (PyDict.get (key d) (entities em))) in
  let* entity :=
    match PyDict.get (key d) (entities em) with
    | None =>
        let entity := EntityData_init entry_id' d in
        let entity := with_status CREATED entity in
        let entity := with_domain (Some domain') entity in
        _compare_data entity state' attributes' device_name' None None;;
        ret entity
    | Some entity =>
        let* was_modified :=
          _compare_data entity state' attributes' device_name' (Some d)
            details' in
        if was_modified
        then assign_entity held (key d) (with_status UPDATED) entity
        else ret entity
    end in
  let* entity :=
    if bool_decide (status entity ∈ [CREATED; UPDATED])
    then assign_entity held (key d)
           (with_values state' attributes' device_name' details') entity
    else ret entity in
  if has_true destructors then
    if decide (status entity = CREATED) then ret None
    else
      let* entity := assign_entity held (key d) (with_status DELETED) entity in
      ret (Some entity)
  else ret (Some entity).

(** [set_entity], lines 258-265. *)
Definition set_entity_store (d : EntityDescription) (entity : option EntityData)
  : M EntityManager unit :=
  match entity with
  | None => logger (DebugIgnored (name d))
  | Some entity =>
      modify (λ em, with_entities (PyDict.set (key d) entity (entities em)) em);;
      if decide (status entity ≠ READY)
      then logger (InfoEntity (entity_name entity) (domain entity)
                     (status entity) (state entity))
      else ret tt
  end.

Definition set_entity (domain' entry_id' : string) (state' : pyval)
    (attributes' : attrs) (device_name' : pyval)
    (entity_description' : option EntityDescription)
    (details' : option attrs) (destructors : option (list bool))
  : M EntityManager unit :=
  match entity_description' with
  | None => raise (AttributeError "'NoneType' object has no attribute 'key'")
  | Some d =>
      let* entity :=
        set_entity_resolve domain' entry_id' state' attributes' device_name' d
          details' destructors in
      set_entity_store d entity
  end.

(** ** The Home Assistant manager *)

(** [async_track_time_interval(hass, action, interval)]: the host registers
    the listener and returns the callback that removes it, here the handle of
    the registration. *)
Definition async_track_time_interval (action : Callback) (interval : Z)
    (h : HomeAssistant) : nat * HomeAssistant :=
  (next_listener h,
   with_time_listeners
     (time_listeners h ++ [(next_listener h, (action, interval))])
     (S (next_listener h)) h).

(** Calling the remove callback of a registration. *)
Definition remove_listener (handle : nat) (h : HomeAssistant) : HomeAssistant :=
  with_time_listeners
    (filter (λ l, l.1 ≠ handle) (time_listeners h)) (next_listener h) h.

Section HomeAssistantManager.

(** Actions are arbitrary Python objects. *)
Context {Action : Type}.

(** Modelled from the spec: [core/helpers/const.py] is not part of the
    sources; [PLATFORMS] maps each platform's domain to its dispatcher
    signal. *)
Context (PLATFORMS : pydict string).

(** The attributes of [HomeAssistantManager].  [_hass] is kept once, inside
    the entity manager that shares it; the storage and device managers play no
    part in the methods below. *)
Record HomeAssistantManager : Type := {
  _is_initialized : bool;
  _is_updating : bool;
  _scan_interval : Z;
  _heartbeat_interval : option Z;
  _entry : option ConfigEntry;
  _entity_manager : EntityManager;
  _async_track_time_handlers : list nat;
  _last_heartbeat : option Z;
  _update_lock : bool;
  _actions : gmap string Action;
}.

Definition _hass (m : HomeAssistantManager) : HomeAssistant :=
  hass (_entity_manager m).

(** [HomeAssistantManager(hass, scan_interval, heartbeat_interval)] *)
Definition HomeAssistantManager_init (h : HomeAssistant) (scan_interval : Z)
    (heartbeat_interval : option Z) : HomeAssistantManager :=
  {| _is_initialized := false; _is_updating := false;
     _scan_interval := scan_interval;
     _heartbeat_interval := heartbeat_interval;
     _entry := None; _entity_manager := EntityManager_init h;
     _async_track_time_handlers := []; _last_heartbeat := None;
     _update_lock := false; _actions := ∅ |}.

Definition with_is_initialized (b : bool) (m : HomeAssistantManager)
  : HomeAssistantManager :=
  {| _is_initialized := b; _is_updating := _is_updating m;
     _scan_interval := _scan_interval m;
     _heartbeat_interval := _heartbeat_interval m;
     _entry := _entry m; _entity_manager := _entity_manager m;
     _async_track_time_handlers := _async_track_time_handlers m;
     _last_heartbeat := _last_heartbeat m;
     _update_lock := _update_lock m; _actions := _actions m |}.

Definition with_is_updating (b : bool) (m : HomeAssistantManager)
  : HomeAssistantManager :=
  {| _is_initialized := _is_initialized m; _is_updating := b;
     _scan_interval := _scan_interval m;
     _heartbeat_interval := _heartbeat_interval m;
     _entry := _entry m; _entity_manager := _entity_manager m;
     _async_track_time_handlers := _async_track_time_handlers m;
     _last_heartbeat := _last_heartbeat m;
     _update_lock := _update_lock m; _actions := _actions m |}.

Definition with_entry (e : option ConfigEntry) (m : HomeAssistantManager)
  : HomeAssistantManager :=
  {| _is_initialized := _is_initialized m; _is_updating := _is_updating m;
     _scan_interval := _scan_interval m;
     _heartbeat_interval := _heartbeat_interval m;
     _entry := e; _entity_manager := _entity_manager m;
     _async_track_time_handlers := _async_track_time_handlers m;
     _last_heartbeat := _last_heartbeat m;
     _update_lock := _update_lock m; _actions := _actions m |}.

Definition with_entity_manager (em : EntityManager) (m : HomeAssistantManager)
  : HomeAssistantManager :=
  {| _is_initialized := _is_initialized m; _is_updating := _is_updating m;
     _scan_interval := _scan_interval m;
     _heartbeat_interval := _heartbeat_interval m;
     _entry := _entry m; _entity_manager := em;
     _async_track_time_handlers := _async_track_time_handlers m;
     _last_heartbeat := _last_heartbeat m;
     _update_lock := _update_lock m; _actions := _actions m |}.

Definition with_handlers (l : list nat) (m : HomeAssistantManager)
  : HomeAssistantManager :=
  {| _is_initialized := _is_initialized m; _is_updating := _is_updating m;
     _scan_interval := _scan_interval m;
     _heartbeat_interval := _heartbeat_interval m;
     _entry := _entry m; _entity_manager := _entity_manager m;
     _async_track_time_handlers := l;
     _last_heartbeat := _last_heartbeat m;
     _update_lock := _update_lock m; _actions := _actions m |}.

Definition with_last_heartbeat (t : option Z) (m : HomeAssistantManager)
  : HomeAssistantManager :=
  {| _is_initialized := _is_initialized m; _is_updating := _is_updating m;
     _scan_interval := _scan_interval m;
     _heartbeat_interval := _heartbeat_interval m;
     _entry := _entry m; _entity_manager := _entity_manager m;
     _async_track_time_handlers := _async_track_time_handlers m;
     _last_heartbeat := t;
     _update_lock := _update_lock m; _actions := _actions m |}.

Definition with_update_lock (b : bool) (m : HomeAssistantManager)
  : HomeAssistantManager :=
  {| _is_initialized := _is_initialized m; _is_updating := _is_updating m;
     _scan_interval := _scan_interval m;
     _heartbeat_interval := _heartbeat_interval m;
     _entry := _entry m; _entity_manager := _entity_manager m;
     _async_track_time_handlers := _async_track_time_handlers m;
     _last_heartbeat := _last_heartbeat m;
     _update_lock := b; _actions := _actions m |}.

Definition with_actions (a : gmap string Action) (m : HomeAssistantManager)
  : HomeAssistantManager :=
  {| _is_initialized := _is_initialized m; _is_updating := _is_updating m;
     _scan_interval := _scan_interval m;
     _heartbeat_interval := _heartbeat_interval m;
     _entry := _entry m; _entity_manager := _entity_manager m;
     _async_track_time_handlers := _async_track_time_handlers m;
     _last_heartbeat := _last_heartbeat m;
     _update_lock := _update_lock m; _actions := a |}.

(** The methods that the component's manager overrides ("must be
    implemented"); in the base class each of them is [pass].  The three
    coroutines are awaited, so they can also end in [CancelledError]; the two
    loaders are synchronous, and giving them the same type lets them raise
    more than they can. *)
Class ManagerHooks : Type := {
  async_initialize_data_providers : Co HomeAssistantManager unit;
  async_stop_data_providers : Co HomeAssistantManager unit;
  async_update_data_providers : Co HomeAssistantManager unit;
  load_entities : Co HomeAssistantManager unit;
  load_devices : Co HomeAssistantManager unit;
}.

Definition base_hooks : ManagerHooks :=
  {| async_initialize_data_providers := ret tt;
     async_stop_data_providers := ret tt;
     async_update_data_providers := ret tt;
     load_entities := ret tt;
     load_devices := ret tt |}.

Context `{hooks : ManagerHooks}.

(** A method of the entity manager, called on [self.entity_manager]. *)
Definition on_entity_manager {A} (c : M EntityManager A)
  : Co HomeAssistantManager A :=
  λ m, let '(r, em) := c (_entity_manager m) in
       (as_base r, with_entity_manager em m).

(** A call of the host on [self._hass]. *)
Definition on_hass {A} (f : HomeAssistant → A * HomeAssistant)
  : Co HomeAssistantManager A :=
  on_entity_manager (λ em, let '(a, h) := f (hass em) in (Ok a, with_hass h em)).

Definition async_create_task (t : Task) : Co HomeAssistantManager unit :=
  on_hass (λ h, (tt, with_tasks (tasks h ++ [t]) h)).

(** The closure [_send_heartbeat] built by [__init__]. *)
Definition _send_heartbeat (internal_now : Z) : Co HomeAssistantManager unit :=
  modify (with_last_heartbeat (Some internal_now));;
  async_create_task TaskSendHeartbeat.

Definition _update_entities (now : Z) : Co HomeAssistantManager unit :=
  async_create_task (TaskAsyncUpdate now).

Definition async_update_entry (entry : option ConfigEntry)
  : Co HomeAssistantManager unit :=
  match entry with
  | Some entry =>
      modify (with_entry (Some entry));;
      on_entity_manager (logger (InfoEntryLoad entry))
  | None =>
      let* m := get_state in
      let entry := _entry m in
      let* remove_async_track_time :=
        on_hass (async_track_time_interval CbUpdateEntities (_scan_interval m)) in
      modify (λ m, with_handlers
                     (_async_track_time_handlers m ++ [remove_async_track_time])
                     m);;
      match _heartbeat_interval m with
      | Some heartbeat_interval =>
          let* remove_async_heartbeat_track_time :=
            on_hass (async_track_time_interval CbSendHeartbeat
                       heartbeat_interval) in
          modify (λ m, with_handlers
                         (_async_track_time_handlers m
                            ++ [remove_async_heartbeat_track_time]) m)
      | None => ret tt
      end;;
      match entry with
      | Some entry => on_entity_manager (logger (InfoEntryChange entry))
      | None =>
          raise (Exception
                   (AttributeError
                      "'NoneType' object has no attribute 'as_dict'"))
      end
  end;;
  async_initialize_data_providers.

Definition async_unload : Co HomeAssistantManager unit :=
  on_entity_manager (logger InfoStopped);;
  let* m := get_state in
  for_each (_async_track_time_handlers m)
    (λ handler, on_hass (λ h, (tt, remove_listener handler h)));;
  modify (with_handlers []);;
  async_stop_data_providers.

Definition dispatch_all : Co HomeAssistantManager unit :=
  let* m := get_state in
  if negb (_is_initialized m) then
    on_entity_manager (logger InfoNotInitializedDispatch)
  else
    for_each (PyDict.keys PLATFORMS)
      (λ dom,
         match PyDict.get dom PLATFORMS with
         | Some signal =>
             on_hass (λ h, (tt, with_signals (signals h ++ [signal]) h))
         | None => ret tt
         end).

(** [update] of the manager, lines 218-231. *)
Definition manager_update : Co HomeAssistantManager unit :=
  let* m := get_state in
  if _update_lock m then ret tt
  else
    modify (with_update_lock true);;
    load_devices;;
    load_entities;;
    on_entity_manager update;;
    async_create_task TaskDispatchAll;;
    modify (with_update_lock false).

Definition async_update (event_time : Z) : Co HomeAssistantManager unit :=
  let* m := get_state in
  if negb (_is_initialized m) then
    on_entity_manager (logger (InfoNotInitialized event_time))
  else
    let* returned :=
      try_except_Exception
        (let* m := get_state in
         if _is_updating m then
           on_entity_manager (logger (DebugSkipUpdating event_time));;
           ret true
         else
           on_entity_manager (logger (DebugUpdating event_time));;
           modify (with_is_updating true);;
           async_update_data_providers;;
           manager_update;;
           ret false)
        (λ ex,
           on_entity_manager (logger (ErrorAsyncUpdate ex));;
           ret false) in
    if (returned : bool) then ret tt
    else modify (with_is_updating false).

(** The key under which an action is kept: [f"{entity_id}:{action_name}"]. *)
Definition action_key (entity_id action_name : string) : string :=
  (entity_id +:+ ":" +:+ action_name).

Definition set_action (entity_id action_name : string) (action : Action)
  : Co HomeAssistantManager unit :=
  let key := action_key entity_id action_name in
  modify (λ m, with_actions (<[key := action]> (_actions m)) m).

(** [get_action]; Python's [None] for a missing key is [None]. *)
Definition get_action (entity_id action_name : string)
    (m : HomeAssistantManager) : option Action :=
  let key := action_key entity_id action_name in
  _actions m !! key.

End HomeAssistantManager.

Arguments HomeAssistantManager : clear implicits.
Arguments ManagerHooks : clear implicits.

(** ** Notions used in the statements *)

(** A computation that only writes to the log. *)
Definition log_only {A} (c : M EntityManager A) : Prop :=
  ∀ em, ∃ l, (c em).2 = with_hass (with_log (log (hass em) ++ l) (hass em)) em.

(** The record of [set_entity] after lines 240-243, after lines 245-249 and
    after lines 251-256, for a record that was found in the mapping. *)
Definition after_comparison (modified : bool) (e : EntityData) : EntityData :=
  if modified then with_status UPDATED e else e.

Definition after_values (st : pyval) (at_ : attrs) (dn : pyval)
    (dt : option attrs) (e : EntityData) : EntityData :=
  if bool_decide (status e ∈ [CREATED; UPDATED])
  then with_values st at_ dn dt e else e.

Definition after_destructors (ds : option (list bool)) (e : EntityData)
  : EntityData :=
  if has_true ds
  then (if decide (status e = CREATED) then e else with_status DELETED e)
  else e.

(** The local [entity] at line 258: [None] when it was dropped. *)
Definition kept (ds : option (list bool)) (e : EntityData) : option EntityData :=
  if has_true ds
  then (if decide (status e = CREATED) then None
        else Some (with_status DELETED e))
  else Some e.

(** Every record sits under the key of its own description. *)
Definition keyed (em : EntityManager) : Prop :=
  ∀ k e, get k em = Some e → id e = k.

(** The record that [set_entity] builds for a key that holds none. *)
Definition new_entity (dom eid : string) (st : pyval) (at_ : attrs) (dn : pyval)
    (d : EntityDescription) (dt : option attrs) : EntityData :=
  with_values st at_ dn dt
    (with_domain (Some dom) (with_status CREATED (EntityData_init eid d))).

(** ** Concrete managers used by the examples *)

Definition front_door : EntityDescription :=
  {| key := "monitor_1_camera"; name := "Front door"; icon := None |}.

Definition back_yard : EntityDescription :=
  {| key := "monitor_2_camera"; name := "Back yard"; icon := None |}.

(** A platform whose initializer builds a component and whose
    [async_add_devices] accepts it. *)
Definition camera_platform : DomainData :=
  {| dd_name := "camera";
     initializer := λ _ e,
       Ok {| comp_unique_id := id e; comp_name := entity_name e;
             comp_entity_id := None |};
     async_add_devices := λ _, Ok tt |}.

Definition em_empty : EntityManager := EntityManager_init HomeAssistant_init.

(** The camera platform is set up. *)
Definition em_platform : EntityManager :=
  (set_domain_data camera_platform em_empty).2.

(** One camera entity was reported ... *)
Definition em_created : EntityManager :=
  (set_entity "camera" "entry" (PyStr "idle") ∅ (PyStr "Front door")
     (Some front_door) None None em_platform).2.

(** ... and went through a reconciliation pass. *)
Definition em_ready : EntityManager := (_async_update em_created).2.

(** A manager as [__init__] leaves it: polling every 60 seconds, a heartbeat
    every 25. *)
Definition ha_initial : HomeAssistantManager string :=
  HomeAssistantManager_init HomeAssistant_init 60 (Some 25%Z).

(** What the add phase changes in the host before it calls an initializer
    is the registry, the log and the record of calls: [h] is the host [h0]
    up to these. *)
Definition host_during_pass (h0 h : HomeAssistant) : Prop :=
  states h = states h0
  ∧ tasks h = tasks h0
  ∧ time_listeners h = time_listeners h0
  ∧ next_listener h = next_listener h0
  ∧ signals h = signals h0.




(** Two cameras: the first was reported for a platform that is not set up,
    the second for the camera platform. *)
Definition em_two_created : EntityManager :=
  (set_entity "camera" "entry" (PyStr "idle") ∅ (PyStr "Back yard")
     (Some back_yard) None None
     (set_entity "sensor" "entry" (PyStr "idle") ∅ (PyStr "Front door")
        (Some front_door) None None em_platform).2).2.

(** Two cameras that went through a pass and were then both reported with a
    destructor flag. *)
Definition em_two_ready : EntityManager :=
  (_async_update
     (set_entity "camera" "entry" (PyStr "idle") ∅ (PyStr "Back yard")
        (Some back_yard) None None em_created).2).2.

Definition em_two_deleted : EntityManager :=
  (set_entity "camera" "entry" (PyStr "idle") ∅ (PyStr "Back yard")
     (Some back_yard) None (Some [true])
     (set_entity "camera" "entry" (PyStr "idle") ∅ (PyStr "Front door")
        (Some front_door) None (Some [true]) em_two_ready).2).2.

(** ** [helpers/__init__.py]: the managers kept in [hass.data]

    The state is [hass.data] at the key [DATA]: [None] when the key is
    absent, otherwise the dictionary from entry ids to managers; with it, the
    exceptions that [async_set_ha] handed to [_LOGGER.error]. *)
Section Helpers.

(** The manager kept for a config entry. *)
Context {Manager : Type}.

Record HassData : Type := {
  ha_data : option (gmap string Manager);
  ha_errors : list exn;
}.

Definition with_ha_data (d : option (gmap string Manager)) (h : HassData)
  : HassData :=
  {| ha_data := d; ha_errors := ha_errors h |}.

(** [if DATA not in hass.data: hass.data[DATA] = dict()] *)
Definition ensure_data {E} : HassData → outcome E unit * HassData :=
  modify (λ h, match ha_data h with
               | None => with_ha_data (Some ∅) h
               | Some _ => h
               end).

Definition clear_ha (entry_id : string) : M HassData unit :=
  ensure_data;;
  let* h := get_state in
  match ha_data h with
  | Some data =>
      match data !! entry_id with
      | Some _ => modify (with_ha_data (Some (delete entry_id data)))
      | None => raise (KeyError entry_id)
      end
  | None => raise (KeyError "DATA")
  end.

Definition get_ha (entry_id : string) (h : HassData) : option Manager :=
  let ha_data := default ∅ (ha_data h) in
  ha_data !! entry_id.

(** [async_set_ha(hass, entry)].  [instance] stands for lines 33-40, whose
    classes are not part of the sources: the password manager is looked up,
    the manager is built and [async_init] awaited, which gives the manager,
    raises, or is cancelled at the [await]. *)
Definition async_set_ha (entry_id : string)
    (instance : outcome BaseException Manager) : Co HassData unit :=
  try_except_Exception
    (ensure_data;;
     let* instance := lift instance in
     let* h := get_state in
     match ha_data h with
     | Some data => modify (with_ha_data (Some (<[entry_id := instance]> data)))
     | None => raise (Exception (KeyError "DATA"))
     end)
    (λ ex, modify (λ h, {| ha_data := ha_data h;
                           ha_errors := ha_errors h ++ [ex] |})).

End Helpers.

Arguments HassData : clear implicits.

(** ** [camera.py]: the still image of a camera

    [render] is what [self._still_image_url.async_render()] gives, [now] the
    text of [datetime.now().timestamp()], and [fetch] what the HTTP session
    answers for a URL: the bytes read, or one of the two exceptions that the
    method handles. *)
Inductive Rendered : Type :=
| RenderedUrl (url : string)
| TemplateError.

Inductive Fetched : Type :=
| Image (bytes : list Byte.byte)
| TimeoutError
| ClientError.

Inductive CameraLog : Type :=
| ErrorTemplate
| ErrorTimeout (nm : string)
| ErrorClient (nm : string).

(** The attributes of [ShinobiCamera] that [async_camera_image] uses. *)
Record ShinobiCamera : Type := {
  cam_name : string;
  _limit_refetch : bool;
  _last_url : option string;
  _last_image : option (list Byte.byte);
}.

Definition async_camera_image (render : Rendered) (now : string)
    (fetch : string → Fetched) (cam : ShinobiCamera)
  : option (list Byte.byte) * ShinobiCamera * list CameraLog :=
  match render with
  | TemplateError => (_last_image cam, cam, [ErrorTemplate])
  | RenderedUrl url =>
      if bool_decide (Some url = _last_url cam) && _limit_refetch cam
      then (_last_image cam, cam, [])
      else
        let url := url +:+ "?ts=" +:+ now in
        match fetch url with
        | Image bytes =>
            (Some bytes,
             {| cam_name := cam_name cam; _limit_refetch := _limit_refetch cam;
                _last_url := Some url; _last_image := Some bytes |},
             [])
        | TimeoutError => (_last_image cam, cam, [ErrorTimeout (cam_name cam)])
        | ClientError => (_last_image cam, cam, [ErrorClient (cam_name cam)])
        end
  end.

(** ** Further notions used in the statements *)

(** Some field that [_compare_data] looks at differs from the new values. *)
Definition field_differs (e : EntityData) (st : pyval) (at_ : attrs)
    (dn : pyval) (ed : option EntityDescription) (dt : option attrs) : Prop :=
  state e ≠ st
  ∨ attributes e ≠ at_
  ∨ device_name e ≠ dn
  ∨ match ed with Some d => entity_description e ≠ d | None => False end
  ∨ match dt with Some t => details e ≠ Some t | None => False end.

#[global] Instance field_differs_dec e st at_ dn ed dt :
  Decision (field_differs e st at_ dn ed dt).
Proof. unfold field_differs. destruct ed, dt; apply _. Defined.

(** A computation that writes to the mapping of entities and to the log
    only. *)
Definition entities_log_only {A} (c : M EntityManager A) : Prop :=
  ∀ em, ∃ l ents,
    (c em).2
    = with_entities ents
        (with_hass (with_log (log (hass em) ++ l) (hass em)) em).

(** Every registration of the host has a handle that was already given out. *)
Definition handles_fresh (h : HomeAssistant) : Prop :=
  ∀ handle cb, (handle, cb) ∈ time_listeners h → handle < next_listener h.

(** A manager with a config entry, initialized. *)
Definition ha_running : HomeAssistantManager string :=
  with_is_initialized true
    (with_entry (Some {| ce_entry_id := "entry"; ce_title := "Shinobi" |})
       ha_initial).

(** Hooks whose [load_devices] raises. *)
Definition failing_hooks : ManagerHooks string :=
  {| async_initialize_data_providers := ret tt;
     async_stop_data_providers := ret tt;
     async_update_data_providers := ret tt;
     load_entities := ret tt;
     load_devices := raise (Exception (HostError "connection lost")) |}.

(** Hooks whose data providers are cancelled while they are awaited. *)
Definition cancelled_hooks : ManagerHooks string :=
  {| async_initialize_data_providers := ret tt;
     async_stop_data_providers := ret tt;
     async_update_data_providers := raise CancelledError;
     load_entities := ret tt;
     load_devices := ret tt |}.

(** The camera of [em_created] was known to the host before, and had been
    disabled there. *)
Definition em_registered : EntityManager :=
  with_hass
    (with_registry
       [{| re_entity_id := "camera.front_door"; re_domain := "camera";
           re_platform := DOMAIN; re_unique_id := key front_door;
           re_disabled := true |}]
       (hass em_created))
    em_created.

(** * Properties *)

(** ** Ordered dictionaries *)
Section PyDictFacts.
Context {V : Type}.
Implicit Types (d : pydict V) (k : string) (v : V).
Import PyDict.

Lemma get_set_eq k v d : get k (set k v d) = Some v.
Proof.
  induction d as [|[k' v'] r IH]; simpl.
  - by rewrite decide_True.
  - destruct (decide (k = k')) as [->|Hne]; simpl.
    + by rewrite decide_True.
    + by rewrite decide_False.
Qed.

Lemma get_set_ne k k' v d : k ≠ k' → get k' (set k v d) = get k' d.
Proof.
  intros Hne. induction d as [|[k0 v0] r IH]; simpl.
  - by rewrite decide_False.
  - destruct (decide (k = k0)) as [->|Hne0]; simpl.
    + by rewrite !decide_False.
    + destruct (decide (k' = k0)); done.
Qed.

Lemma get_set k k' v d :
  get k' (set k v d) = if decide (k = k') then Some v else get k' d.
Proof.
  case_decide; [subst; apply get_set_eq | by apply get_set_ne].
Qed.

Lemma set_same k v d : get k d = Some v → set k v d = d.
Proof.
  induction d as [|[k' v'] r IH]; simpl; [done|].
  destruct (decide (k = k')) as [->|Hne]; [congruence|].
  intros H. by rewrite IH.
Qed.

Lemma length_set_present k v d :
  is_Some (get k d) → length (set k v d) = length d.
Proof.
  induction d as [|[k' v'] r IH]; simpl.
  - by intros [? ?].
  - destruct (decide (k = k')); simpl; [done|]. intros H. by rewrite IH.
Qed.

Lemma keys_set_present k v d :
  is_Some (get k d) → keys (set k v d) = keys d.
Proof.
  unfold keys. induction d as [|[k' v'] r IH]; simpl.
  - by intros [? ?].
  - destruct (decide (k = k')) as [->|]; simpl; [done|].
    intros H. f_equal. by apply IH.
Qed.

Lemma get_is_Some_keys k d : is_Some (get k d) ↔ k ∈ keys d.
Proof.
  unfold keys. induction d as [|[k' v'] r IH]; simpl.
  - split; [by intros [? ?] | by intros ?%elem_of_nil].
  - destruct (decide (k = k')) as [->|Hne].
    + split; [intros _; apply list_elem_of_here | by eauto].
    + rewrite IH. split; [apply list_elem_of_further|].
      by intros [?|?]%elem_of_cons.
Qed.

Lemma del_get_ne k k' d d' :
  del k d = Some d' → k ≠ k' → get k' d' = get k' d.
Proof.
  revert d'. induction d as [|[k0 v0] r IH]; simpl; intros d' Hd Hne; [done|].
  destruct (decide (k = k0)) as [->|Hne0].
  - injection Hd as <-. by rewrite decide_False.
  - destruct (del k r) as [r'|] eqn:Hr; simpl in Hd; [|done].
    injection Hd as <-. simpl. destruct (decide (k' = k0)); [done|].
    by apply IH.
Qed.

Lemma del_length k d d' : del k d = Some d' → length d = S (length d').
Proof.
  revert d'. induction d as [|[k0 v0] r IH]; simpl; intros d' Hd; [done|].
  destruct (decide (k = k0)) as [->|Hne0].
  - by injection Hd as <-.
  - destruct (del k r) as [r'|] eqn:Hr; simpl in Hd; [|done].
    injection Hd as <-. simpl. by rewrite (IH r').
Qed.

Lemma del_is_Some k d : is_Some (get k d) → is_Some (del k d).
Proof.
  induction d as [|[k0 v0] r IH]; simpl; [by intros [? ?]|].
  destruct (decide (k = k0)); [by eauto|].
  intros H. destruct (IH H) as [r' ->]. by eauto.
Qed.
End PyDictFacts.

Lemma dict_set_set {V} k (v v' : V) (d : pydict V) :
  PyDict.set k v (PyDict.set k v' d) = PyDict.set k v d.
Proof.
  induction d as [|[k0 v0] r IH]; simpl.
  - by rewrite decide_True.
  - destruct (decide (k = k0)) as [->|Hne]; simpl.
    + by rewrite decide_True.
    + rewrite decide_False by done. by rewrite IH.
Qed.

(** ** The entity manager: [set_entity] *)

Lemma with_log_nil em :
  with_hass (with_log (log (hass em) ++ []) (hass em)) em = em.
Proof. rewrite app_nil_r. by destruct em as [[] ? ?]. Qed.

Lemma log_only_ret {A} (a : A) : log_only (ret a).
Proof. intros em. exists []. simpl. by rewrite with_log_nil. Qed.

Lemma log_only_raise {A} ex : log_only (@raise _ _ A ex).
Proof. intros em. exists []. simpl. by rewrite with_log_nil. Qed.

Lemma log_only_lift {A} (r : result A) : log_only (lift r).
Proof. intros em. exists []. simpl. by rewrite with_log_nil. Qed.

Lemma log_only_logger r : log_only (logger r).
Proof. intros em. by exists [r]. Qed.

Lemma log_only_bind {A B} (c : M EntityManager A) (k : A → M EntityManager B) :
  log_only c → (∀ a, log_only (k a)) → log_only (bind c k).
Proof.
  intros Hc Hk em. unfold bind. destruct (Hc em) as [l Hl].
  destruct (c em) as [[a|ex] em1]; simpl in *; subst em1.
  - destruct (Hk a (with_hass (with_log (log (hass em) ++ l) (hass em)) em))
      as [l' ->].
    exists (l ++ l'). simpl. by rewrite app_assoc.
  - by exists l.
Qed.

Lemma compare_data_log_only entity st at_ dn ed dt :
  log_only (_compare_data entity st at_ dn ed dt).
Proof.
  unfold _compare_data.
  repeat first
    [ apply log_only_bind; [|intros ?]
    | apply log_only_ret | apply log_only_lift | apply log_only_logger
    | case_decide | case_match ].
Qed.

Lemma compare_data_entities entity st at_ dn ed dt em :
  entities (_compare_data entity st at_ dn ed dt em).2 = entities em
  ∧ domain_component_manager (_compare_data entity st at_ dn ed dt em).2
    = domain_component_manager em
  ∧ registry (hass (_compare_data entity st at_ dn ed dt em).2)
    = registry (hass em)
  ∧ calls (hass (_compare_data entity st at_ dn ed dt em).2)
    = calls (hass em).
Proof.
  destruct (compare_data_log_only entity st at_ dn ed dt em) as [l ->]. done.
Qed.

(** Without [details] the comparison iterates no [None] and returns. *)
Lemma compare_data_no_details entity st at_ dn ed em :
  ∃ modified, (_compare_data entity st at_ dn ed None em).1 = Ok modified.
Proof.
  unfold _compare_data, bind, lift, ret, _get_attributes_json. simpl.
  repeat (case_decide || case_match); simplify_eq/=; eauto.
Qed.

Lemma assign_present k f em e :
  PyDict.get k (entities em) = Some e →
  assign k f em = (Ok tt, with_entities (PyDict.set k (f e) (entities em)) em).
Proof. intros H. unfold assign, modify. by rewrite H. Qed.

Lemma with_entities_same em : with_entities (entities em) em = em.
Proof. by destruct em. Qed.

(** Runs a monadic computation whose lookups are known. *)
Ltac run :=
  repeat first
    [ progress (unfold bind, ret, get_state, modify, raise, lift, assign,
                assign_entity, logger, set_registry, record_call; simpl)
    | rewrite get_set_eq
    | rewrite dict_set_set
    | match goal with
      | H : PyDict.get _ _ = _ |- _ => rewrite H
      end ].

(** [set_entity] on a key that holds a record, when the comparison returns. *)
Lemma resolve_existing dom eid st at_ dn d dt ds em entity modified em1 :
  PyDict.get (key d) (entities em) = Some entity →
  _compare_data entity st at_ dn (Some d) dt em = (Ok modified, em1) →
  let e2 := after_values st at_ dn dt (after_comparison modified entity) in
  set_entity_resolve dom eid st at_ dn d dt ds em
  = (Ok (kept ds e2),
     with_entities (PyDict.set (key d) (after_destructors ds e2) (entities em1))
       em1).
Proof.
  intros Hget Hcmp e2.
  assert (Hent : entities em1 = entities em).
  { pose proof (compare_data_entities entity st at_ dn (Some d) dt em) as [H _].
    by rewrite Hcmp in H. }
  assert (Hget1 : PyDict.get (key d) (entities em1) = Some entity)
    by (by rewrite Hent).
  unfold set_entity_resolve. unfold bind at 1. unfold get_state at 1.
  rewrite Hget. rewrite bool_decide_eq_true_2 by eauto.
  unfold bind at 1. unfold bind at 1. rewrite Hcmp.
  subst e2. unfold after_values, after_comparison, after_destructors, kept.
  destruct modified; simpl.
  - run. destruct (has_true ds); run; done.
  - destruct (bool_decide (status entity ∈ [CREATED; UPDATED])) eqn:Hst; run.
    + destruct (has_true ds); run; [|done].
      destruct (decide (status entity = CREATED)); run; done.
    + destruct (has_true ds); run.
      * destruct (decide (status entity = CREATED)); run;
          [by rewrite set_same, with_entities_same | done].
      * by rewrite set_same, with_entities_same.
Qed.

(** [set_entity] on a key that holds no record. *)
Lemma resolve_new dom eid st at_ dn d dt ds em :
  PyDict.get (key d) (entities em) = None →
  ∃ em1,
    set_entity_resolve dom eid st at_ dn d dt ds em
    = (Ok (kept ds (new_entity dom eid st at_ dn d dt)), em1)
    ∧ entities em1 = entities em.
Proof.
  intros Hget.
  set (fresh := with_domain (Some dom) (with_status CREATED (EntityData_init eid d))).
  destruct (compare_data_no_details fresh st at_ dn None em) as [b Hb].
  pose proof (compare_data_entities fresh st at_ dn None None em) as [Hent _].
  destruct (_compare_data fresh st at_ dn None None em) as [r em1] eqn:Hcmp.
  simpl in Hb, Hent. subst r.
  exists em1. split; [|done].
  unfold set_entity_resolve. unfold bind at 1. unfold get_state at 1.
  rewrite Hget. rewrite bool_decide_eq_false_2 by (by intros [? ?]).
  unfold bind at 1. unfold bind at 1. fold fresh. rewrite Hcmp.
  unfold kept, new_entity. fold fresh. run.
  destruct (has_true ds); done.
Qed.

Lemma resolve_raise dom eid st at_ dn d dt ds em entity ex em1 :
  PyDict.get (key d) (entities em) = Some entity →
  _compare_data entity st at_ dn (Some d) dt em = (Raise ex, em1) →
  set_entity_resolve dom eid st at_ dn d dt ds em = (Raise ex, em1).
Proof.
  intros Hget Hcmp.
  unfold set_entity_resolve. unfold bind at 1. unfold get_state at 1.
  rewrite Hget. unfold bind at 1. unfold bind at 1. by rewrite Hcmp.
Qed.

Lemma store_entities d entity em :
  (set_entity_store d entity em).1 = Ok tt
  ∧ entities (set_entity_store d entity em).2
    = match entity with
      | Some e => PyDict.set (key d) e (entities em)
      | None => entities em
      end.
Proof.
  unfold set_entity_store. destruct entity as [e|]; run; [|done].
  by case_decide.
Qed.

Lemma set_entity_existing dom eid st at_ dn d dt ds em entity modified em1 :
  PyDict.get (key d) (entities em) = Some entity →
  _compare_data entity st at_ dn (Some d) dt em = (Ok modified, em1) →
  (set_entity dom eid st at_ dn (Some d) dt ds em).1 = Ok tt
  ∧ entities (set_entity dom eid st at_ dn (Some d) dt ds em).2
    = PyDict.set (key d)
        (after_destructors ds
           (after_values st at_ dn dt (after_comparison modified entity)))
        (entities em).
Proof.
  intros Hget Hcmp.
  assert (Hent : entities em1 = entities em).
  { pose proof (compare_data_entities entity st at_ dn (Some d) dt em) as [H _].
    by rewrite Hcmp in H. }
  unfold set_entity. unfold bind.
  rewrite (resolve_existing dom eid _ _ _ _ _ ds _ _ _ _ Hget Hcmp).
  match goal with |- context [set_entity_store d ?e ?m] =>
    destruct (store_entities d e m) as [H1 H2] end.
  split; [done|]. rewrite H2. simpl. rewrite Hent.
  unfold kept, after_destructors.
  destruct (has_true ds); [|by rewrite dict_set_set].
  case_decide; [done | by rewrite dict_set_set].
Qed.

Lemma set_entity_new dom eid st at_ dn d dt ds em :
  PyDict.get (key d) (entities em) = None →
  (set_entity dom eid st at_ dn (Some d) dt ds em).1 = Ok tt
  ∧ entities (set_entity dom eid st at_ dn (Some d) dt ds em).2
    = if has_true ds then entities em
      else PyDict.set (key d) (new_entity dom eid st at_ dn d dt) (entities em).
Proof.
  intros Hget.
  destruct (resolve_new dom eid st at_ dn d dt ds em Hget) as (em1 & Hr & Hent).
  unfold set_entity. unfold bind. rewrite Hr.
  match goal with |- context [set_entity_store d ?e ?m] =>
    destruct (store_entities d e m) as [H1 H2] end.
  split; [done|]. rewrite H2, Hent. unfold kept.
  destruct (has_true ds); [|done].
  by rewrite decide_True.
Qed.

Lemma set_entity_raise dom eid st at_ dn d dt ds em entity ex em1 :
  PyDict.get (key d) (entities em) = Some entity →
  _compare_data entity st at_ dn (Some d) dt em = (Raise ex, em1) →
  set_entity dom eid st at_ dn (Some d) dt ds em = (Raise ex, em1)
  ∧ entities em1 = entities em.
Proof.
  intros Hget Hcmp. split.
  - unfold set_entity, bind.
    by rewrite (resolve_raise dom eid _ _ _ _ _ ds _ _ _ _ Hget Hcmp).
  - pose proof (compare_data_entities entity st at_ dn (Some d) dt em) as [H _].
    by rewrite Hcmp in H.
Qed.

Example em_ready_status :
  status <$> get (key front_door) em_ready = Some READY.
Proof. vm_compute. reflexivity. Qed.

(** The comparison itself can raise: a record stored without details holds
    [None] there, and a later call with details makes [_get_attributes_json]
    iterate it.  [set_entity] then raises and the record stays as it was. *)
Example set_entity_details_raise :
  set_entity "camera" "entry" (PyStr "idle") ∅ (PyStr "Front door")
    (Some front_door) (Some ∅) None em_created
  = (Raise (TypeError "'NoneType' object is not iterable"), em_created).
Proof. vm_compute. reflexivity. Qed.

(** With a destructor flag the record that exists is marked DELETED, unless
    it is still CREATED. *)
Lemma set_entity_status_destroyed dom eid st at_ dn d dt ds em entity modified em1 :
  has_true ds = true →
  get (key d) em = Some entity →
  _compare_data entity st at_ dn (Some d) dt em = (Ok modified, em1) →
  status <$> get (key d) (set_entity dom eid st at_ dn (Some d) dt ds em).2
  = Some (if decide (status (after_comparison modified entity) = CREATED)
          then CREATED else DELETED).
Proof.
  intros Hds Hget Hcmp.
  destruct (set_entity_existing dom eid st at_ dn d dt ds em entity modified
              em1 Hget Hcmp) as [_ H].
  unfold get. rewrite H, get_set_eq. simpl. f_equal.
  unfold after_destructors, after_values. rewrite Hds.
  case_bool_decide; simpl; repeat case_decide; simpl in *; congruence.
Qed.

(** C8: when the key holds no record and the destructors hold a [True],
    [set_entity] returns and leaves the mapping as it was. *)
Theorem set_entity_dropped dom eid st at_ dn d dt ds em :
  get (key d) em = None →
  has_true ds = true →
  (set_entity dom eid st at_ dn (Some d) dt ds em).1 = Ok tt
  ∧ entities (set_entity dom eid st at_ dn (Some d) dt ds em).2 = entities em.
Proof.
  intros Hget Hds.
  destruct (set_entity_new dom eid st at_ dn d dt ds em Hget) as [H1 H2].
  split; [done|]. by rewrite H2, Hds.
Qed.

Lemma set_entity_dropped_witness :
  entities
    (set_entity "camera" "entry" (PyStr "idle") ∅ (PyStr "Back yard")
       (Some back_yard) None (Some [false; true]) em_ready).2
  = entities em_ready.
Proof.
  refine (proj2 (set_entity_dropped "camera" "entry" (PyStr "idle") ∅
                   (PyStr "Back yard") back_yard None (Some [false; true])
                   em_ready _ _)); vm_compute; reflexivity.
Defined.

(** C9: for a record that exists, the four values are assigned exactly when
    the status after the comparison is CREATED or UPDATED; otherwise the
    record keeps its state, attributes, device name and details. *)
Theorem set_entity_values dom eid st at_ dn d dt ds em entity modified em1 :
  get (key d) em = Some entity →
  _compare_data entity st at_ dn (Some d) dt em = (Ok modified, em1) →
  ∃ entity',
    get (key d) (set_entity dom eid st at_ dn (Some d) dt ds em).2
    = Some entity'
    ∧ (status (after_comparison modified entity) ∉ [CREATED; UPDATED] →
       state entity' = state entity
       ∧ attributes entity' = attributes entity
       ∧ device_name entity' = device_name entity
       ∧ details entity' = details entity)
    ∧ (status (after_comparison modified entity) ∈ [CREATED; UPDATED] →
       state entity' = st
       ∧ attributes entity' = at_
       ∧ device_name entity' = dn
       ∧ details entity' = dt).
Proof.
  intros Hget Hcmp.
  destruct (set_entity_existing dom eid st at_ dn d dt ds em entity modified
              em1 Hget Hcmp) as [_ H].
  eexists. unfold get at 1. rewrite H, get_set_eq. split; [done|].
  unfold after_destructors, after_values.
  split; intros Hst.
  - rewrite bool_decide_eq_false_2 by done.
    destruct (has_true ds); [case_decide|]; simpl;
      by destruct modified.
  - rewrite bool_decide_eq_true_2 by done.
    destruct (has_true ds); [case_decide|]; done.
Qed.

Lemma set_entity_values_witness :
  ∃ entity',
    get (key front_door)
      (set_entity "camera" "entry" (PyStr "idle") ∅ (PyStr "Front door")
         (Some front_door) None (Some [true]) em_ready).2
    = Some entity'
    ∧ state entity' = PyStr "idle"
    ∧ details entity' = None.
Proof.
  destruct (set_entity_values "camera" "entry" (PyStr "idle") ∅
              (PyStr "Front door") front_door None (Some [true]) em_ready
              (default (EntityData_init "" front_door)
                 (get (key front_door) em_ready))
              false
              (_compare_data (default (EntityData_init "" front_door)
                                (get (key front_door) em_ready))
                 (PyStr "idle") ∅ (PyStr "Front door") (Some front_door)
                 None em_ready).2)
    as (entity' & Hg & Hkeep & _).
  - vm_compute. reflexivity.
  - vm_compute. reflexivity.
  - exists entity'. split; [exact Hg|].
    destruct Hkeep as (Hs & _ & _ & Hd).
    + vm_compute. intros H. apply elem_of_cons in H as [H|H]; [discriminate|].
      apply elem_of_cons in H as [H|H]; [discriminate|].
      by apply elem_of_nil in H.
    + split; [rewrite Hs | rewrite Hd]; vm_compute; reflexivity.
Defined.

Lemma keyed_set k e em :
  keyed em → id e = k → keyed (with_entities (PyDict.set k e (entities em)) em).
Proof.
  intros Hk He k' e'. unfold get. simpl. rewrite get_set.
  case_decide; [naive_solver | apply Hk].
Qed.


(** ** The Home Assistant manager *)

Section HomeAssistantManagerFacts.
Context {Action : Type}.
Implicit Types (m : HomeAssistantManager Action).

(** C10: [get_action] after [set_action] returns the action that was set, and
    leaves the result for every pair with a different composed key as it
    was. *)
Theorem get_action_set_action m entity_id action_name (action : Action) :
  get_action entity_id action_name
    (set_action entity_id action_name action m).2 = Some action
  ∧ ∀ entity_id' action_name',
      action_key entity_id action_name ≠ action_key entity_id' action_name' →
      get_action entity_id' action_name'
        (set_action entity_id action_name action m).2
      = get_action entity_id' action_name' m.
Proof.
  unfold get_action, set_action, modify. simpl. split.
  - apply lookup_insert_eq.
  - intros entity_id' action_name' Hne. by apply lookup_insert_ne.
Qed.

(** C7: while [_is_initialized] is false, [async_update] only logs: it
    returns normally, the entity mapping, the flags and the task queue are
    what they were, and the result does not depend on the overridable
    methods, none of which is called. *)
Theorem async_update_not_initialized (hooks : ManagerHooks Action)
    event_time m :
  _is_initialized m = false →
  (async_update event_time m).1 = Ok tt
  ∧ entities (_entity_manager (async_update event_time m).2)
    = entities (_entity_manager m)
  ∧ _is_initialized (async_update event_time m).2 = false
  ∧ _is_updating (async_update event_time m).2 = _is_updating m
  ∧ _update_lock (async_update event_time m).2 = _update_lock m
  ∧ tasks (_hass (async_update event_time m).2) = tasks (_hass m)
  ∧ log (_hass (async_update event_time m).2)
    = log (_hass m) ++ [InfoNotInitialized event_time]
  ∧ ∀ hooks' : ManagerHooks Action,
      @async_update _ hooks' event_time m = @async_update _ hooks event_time m.
Proof.
  intros Hinit. unfold async_update, bind, get_state. rewrite Hinit. simpl.
  done.
Qed.

(** C6: without a config entry, [async_update_entry] registers the update
    callback at the scan interval, and the heartbeat callback exactly when a
    heartbeat interval is set, and appends their handles to
    [_async_track_time_handlers].  This is the state [m1] with which the
    change is logged and the data providers are initialized. *)
Theorem async_update_entry_registers (hooks : ManagerHooks Action) m :
  let n := next_listener (_hass m) in
  let registered :=
    (n, (CbUpdateEntities, _scan_interval m))
    :: match _heartbeat_interval m with
       | Some interval => [(S n, (CbSendHeartbeat, interval))]
       | None => []
       end in
  ∃ m1,
    time_listeners (_hass m1) = time_listeners (_hass m) ++ registered
    ∧ _async_track_time_handlers m1
      = _async_track_time_handlers m ++ registered.*1
    ∧ ((∃ handle interval, (handle, (CbSendHeartbeat, interval)) ∈ registered)
       ↔ is_Some (_heartbeat_interval m))
    ∧ async_update_entry None m
      = match _entry m with
        | Some entry =>
            (on_entity_manager (logger (InfoEntryChange entry));;
             async_initialize_data_providers) m1
        | None =>
            (Raise (Exception
                      (AttributeError
                         "'NoneType' object has no attribute 'as_dict'")), m1)
        end.
Proof.
  intros n registered. subst n registered.
  destruct m as [ini upd scan hb entry [[reg sts lg tsk tl nl sg cl] dcm ents]
                   handlers lh lock acts].
  destruct hb as [interval|]; simpl.
  - eexists. split; [|split; [|split; [|
      unfold async_update_entry, bind, get_state, modify, on_hass,
        on_entity_manager, async_track_time_interval, ret; simpl;
      destruct entry; reflexivity]]]; simpl.
    + by rewrite <-app_assoc.
    + by rewrite <-app_assoc.
    + split; [by eauto|]. intros _. exists (S nl), interval.
      apply list_elem_of_further, list_elem_of_here.
  - eexists. split; [|split; [|split; [|
      unfold async_update_entry, bind, get_state, modify, on_hass,
        on_entity_manager, async_track_time_interval, ret; simpl;
      destruct entry; reflexivity]]]; simpl.
    + done.
    + done.
    + split; [|by intros [? ?]].
      intros (h & i & Hin). apply elem_of_cons in Hin as [Hin|Hin];
        [discriminate | by apply elem_of_nil in Hin].
Qed.

End HomeAssistantManagerFacts.

(** Two pairs can share a composed key; the second then replaces the first. *)
Example action_key_collision :
  action_key "camera.a:b" "c" = action_key "camera.a" "b:c"
  ∧ get_action "camera.a" "b:c"
      (set_action "camera.a:b" "c" "take" ha_initial).2 = Some "take".
Proof. split; vm_compute; reflexivity. Qed.

Lemma get_action_set_action_witness :
  get_action "camera.front_door" "snapshot"
    (set_action "camera.back_yard" "snapshot" "take" ha_initial).2
  = get_action "camera.front_door" "snapshot" ha_initial.
Proof.
  refine (proj2 (get_action_set_action ha_initial "camera.back_yard"
                   "snapshot" "take") "camera.front_door" "snapshot" _).
  vm_compute. discriminate.
Defined.

Lemma async_update_not_initialized_witness :
  _is_initialized ha_initial = false
  ∧ (@async_update _ base_hooks 0 ha_initial).1 = Ok tt
  ∧ entities (_entity_manager (@async_update _ base_hooks 0 ha_initial).2) = [].
Proof.
  split; [reflexivity|].
  destruct (async_update_not_initialized base_hooks 0 ha_initial eq_refl)
    as (Hr & He & _).
  split; [exact Hr | exact He].
Defined.

(** ** The entity manager: the reconciliation pass *)

(** C3: [_async_add_components] and [_async_update] return normally from
    every state; an exception raised in the add phase is logged by
    [_async_add_components], one raised in the rest of the pass is logged by
    [_async_update]. *)
Theorem reconciliation_never_raises em :
  (_async_add_components em).1 = Ok tt
  ∧ (_async_update em).1 = Ok tt
  ∧ (∀ ex em1,
       _async_add_components_body em = (Raise ex, em1) →
       _async_add_components em = logger (ErrorAddComponent ex) em1)
  ∧ (∀ ex em1,
       (_async_add_components;; _async_delete_components)
         (logger DebugStartUpdate em).2 = (Raise ex, em1) →
       _async_update em = logger (ErrorUpdate ex) em1).
Proof.
  split; [|split; [|split]].
  - unfold _async_add_components, try_except.
    by destruct (_async_add_components_body em) as [[[]|ex] em1].
  - unfold _async_update, try_except, bind. simpl.
    match goal with |- context [_async_add_components ?s] =>
      destruct (_async_add_components s) as [[[]|ex] em1] end; simpl;
      [|done].
    by destruct (_async_delete_components em1) as [[[]|ex] em2].
  - intros ex em1 Hbody. unfold _async_add_components, try_except.
    by rewrite Hbody.
  - intros ex em1 Hpass. unfold _async_update, try_except.
    unfold bind at 1. simpl in *. unfold bind in *.
    match goal with |- context [_async_add_components ?s] =>
      destruct (_async_add_components s) as [[[]|ex'] em2] end; simpl in *.
    + by rewrite Hpass.
    + by simplify_eq.
Qed.

Lemma reconciliation_never_raises_witness :
  ErrorAddComponent
    (AttributeError "'NoneType' object has no attribute 'initializer'")
  ∈ log (hass (_async_add_components em_two_created).2).
Proof.
  rewrite (proj1 (proj2 (proj2 (reconciliation_never_raises em_two_created)))
             (AttributeError "'NoneType' object has no attribute 'initializer'")
             (_async_add_components_body em_two_created).2).
  - vm_compute. apply list_elem_of_In. vm_compute. tauto.
  - vm_compute. reflexivity.
Defined.

(** C2 fails on the code.  Both cameras are DELETED; the pass removes the
    first from mapping, the iteration over the mapping then raises because
    the mapping changed size, and the second is still there, DELETED. *)
Theorem delete_phase_leaves_deleted_record :
  (status <$> get (key front_door) em_two_deleted = Some DELETED
   ∧ status <$> get (key back_yard) em_two_deleted = Some DELETED)
  ∧ (_async_delete_components em_two_deleted).1
    = Raise (RuntimeError "dictionary changed size during iteration")
  ∧ get (key front_door) (_async_update em_two_deleted).2 = None
  ∧ status <$> get (key back_yard) (_async_update em_two_deleted).2
    = Some DELETED
  ∧ ErrorUpdate (RuntimeError "dictionary changed size during iteration")
    ∈ log (hass (_async_update em_two_deleted).2).
Proof.
  vm_compute. repeat split. apply list_elem_of_In. vm_compute. tauto.
Qed.

Lemma delete_component_skip k n em e :
  get k em = Some e → status e ≠ DELETED →
  delete_component k n em = (Ok n, em).
Proof.
  unfold get, delete_component. intros Hget Hst. run.
  by rewrite decide_False.
Qed.

Lemma delete_component_removes k n em e :
  get k em = Some e → status e = DELETED → id e = k →
  ∃ em',
    delete_component k n em = (Ok (n + 1), em')
    ∧ length (entities em) = S (length (entities em'))
    ∧ ∀ k', k ≠ k' → get k' em' = get k' em.
Proof.
  unfold get. intros Hget Hst Hid.
  destruct (del_is_Some k (entities em)) as [d' Hd']; [by eauto|].
  unfold delete_component. run. rewrite decide_True by done.
  rewrite Hid.
  destruct (async_get _ _) as [item|];
    [destruct (async_get_entity_id _ _ _ _)|]; simpl; rewrite Hd';
    (eexists; split; [reflexivity|]; simpl;
     split; [by eapply del_length | intros k' Hk'; by eapply del_get_ne]).
Qed.

Lemma for_unique_id_size_changed {A} n ks
    (body : string → A → M EntityManager A) acc em :
  length (entities em) ≠ n →
  for_unique_id n ks body acc em
  = (Raise (RuntimeError "dictionary changed size during iteration"), em).
Proof. intros H. destruct ks; simpl; by rewrite decide_False. Qed.

(** Without a DELETED record the delete loop visits every key and changes
    nothing. *)
Lemma delete_loop_nothing ks acc em :
  (∀ k, k ∈ ks → ∃ e, get k em = Some e ∧ status e ≠ DELETED) →
  for_unique_id (length (entities em)) ks delete_component acc em
  = (Ok acc, em).
Proof.
  induction ks as [|k ks IH]; intros Hks; simpl; rewrite decide_True by done.
  - done.
  - destruct (Hks k) as (e & Hget & Hst); [apply list_elem_of_here|].
    unfold bind. rewrite (delete_component_skip k acc em e Hget Hst).
    apply IH. intros k' Hk'. apply Hks. by apply list_elem_of_further.
Qed.

(** With a DELETED record among the keys to visit, the loop removes the
    first one and the next step of the iteration raises. *)
Lemma delete_loop_raises ks acc em :
  keyed em →
  (∀ k, k ∈ ks → is_Some (get k em)) →
  (∃ k e, k ∈ ks ∧ get k em = Some e ∧ status e = DELETED) →
  (for_unique_id (length (entities em)) ks delete_component acc em).1
  = Raise (RuntimeError "dictionary changed size during iteration").
Proof.
  intros Hkeyed. induction ks as [|k ks IH]; intros Hks (k0 & e0 & Hin & Hget0 & Hst0).
  - by apply elem_of_nil in Hin.
  - simpl. rewrite decide_True by done.
    destruct (Hks k) as [e Hget]; [apply list_elem_of_here|].
    unfold bind.
    destruct (decide (status e = DELETED)) as [Hst|Hst].
    + destruct (delete_component_removes k acc em e Hget Hst (Hkeyed _ _ Hget))
        as (em' & -> & Hlen & _).
      rewrite for_unique_id_size_changed; [done|]. rewrite Hlen. lia.
    + rewrite (delete_component_skip k acc em e Hget Hst).
      apply IH.
      * intros k' Hk'. apply Hks. by apply list_elem_of_further.
      * apply elem_of_cons in Hin as [->|Hin]; [congruence|]. by eauto.
Qed.

(** The delete phase completes only when there is nothing to delete. *)
Lemma delete_components_nothing em :
  (∀ k e, get k em = Some e → status e ≠ DELETED) →
  _async_delete_components em = (Ok tt, em).
Proof.
  intros H. unfold _async_delete_components, for_in_entities, bind.
  rewrite delete_loop_nothing; [done|].
  intros k Hk. apply get_is_Some_keys in Hk as [e He]. by eauto.
Qed.

Lemma delete_components_raises em :
  keyed em →
  (∃ k e, get k em = Some e ∧ status e = DELETED) →
  (_async_delete_components em).1
  = Raise (RuntimeError "dictionary changed size during iteration").
Proof.
  intros Hkeyed (k & e & Hget & Hst).
  unfold _async_delete_components, for_in_entities, bind.
  assert ((for_unique_id (length (entities em)) (PyDict.keys (entities em))
             delete_component 0 em).1
          = Raise (RuntimeError "dictionary changed size during iteration"))
    as H.
  { apply delete_loop_raises; [done| |].
    - intros k' Hk'. by apply get_is_Some_keys.
    - exists k, e. split; [|done]. apply get_is_Some_keys. by eauto. }
  destruct (for_unique_id _ _ _ _ _) as [[n|ex] em']; simpl in H;
    by simplify_eq.
Qed.

(** *** The add phase *)


Lemma host_during_pass_refl h : host_during_pass h h.
Proof. by repeat split. Qed.




Lemma add_component_skip k comps em e :
  get k em = Some e → status e ≠ CREATED →
  add_component k comps em = (Ok comps, em).
Proof.
  unfold get, add_component. intros Hget Hst. run. by rewrite decide_False.
Qed.













(** * Further properties of the entity manager *)

(** X1: [get_domain_data] after [set_domain_data] returns the data that was
    set, under its name; the answer for every other domain, and the mapping of
    entities, are as before. *)
Theorem get_domain_data_set_domain_data domain_data em :
  get_domain_data (dd_name domain_data) (set_domain_data domain_data em).2
  = (Ok domain_data, (set_domain_data domain_data em).2)
  ∧ (∀ dom, dom ≠ dd_name domain_data →
       (get_domain_data dom (set_domain_data domain_data em).2).1
       = (get_domain_data dom em).1)
  ∧ dd_name domain_data ∈ available_domains (set_domain_data domain_data em).2
  ∧ entities (set_domain_data domain_data em).2 = entities em.
Proof.
  unfold get_domain_data, set_domain_data, available_domains, bind, get_state,
    modify. simpl. split; [|split; [|split]].
  - by rewrite get_set_eq.
  - intros dom Hne. rewrite get_set_ne by done.
    by destruct (PyDict.get dom (domain_component_manager em)).
  - apply get_is_Some_keys. rewrite get_set_eq. by eauto.
  - done.
Qed.

Lemma get_domain_data_set_domain_data_witness :
  (get_domain_data "sensor" em_platform).1 = Raise (KeyError "sensor").
Proof.
  unfold em_platform.
  rewrite (proj1 (proj2 (get_domain_data_set_domain_data camera_platform
                           em_empty)) "sensor").
  - reflexivity.
  - vm_compute. discriminate.
Defined.

(** X2: [get_domain_data] returns a platform's data exactly for the domains
    listed by [available_domains]; for every other domain it raises
    [KeyError], and in both cases the manager is left as it was. *)
Theorem get_domain_data_available dom em :
  (get_domain_data dom em).2 = em
  ∧ ((∃ domain_data, (get_domain_data dom em).1 = Ok domain_data)
     ↔ dom ∈ available_domains em)
  ∧ (dom ∉ available_domains em →
     (get_domain_data dom em).1 = Raise (KeyError dom)).
Proof.
  unfold get_domain_data, available_domains, bind, get_state.
  pose proof (get_is_Some_keys dom (domain_component_manager em)) as Hk.
  destruct (PyDict.get dom (domain_component_manager em)) as [dd|]; simpl.
  - split; [done|]. split.
    + split; [intros _; apply Hk; by eauto | by eauto].
    + intros Hn. exfalso. apply Hn, Hk. by eauto.
  - split; [done|]. split; [|done].
    split; [by intros [? [=]] | intros [? [=]]%Hk].
Qed.

Lemma get_domain_data_available_witness :
  (get_domain_data "sensor" em_ready).1 = Raise (KeyError "sensor").
Proof.
  apply (proj2 (proj2 (get_domain_data_available "sensor" em_ready))).
  vm_compute. intros H. apply list_elem_of_In in H. vm_compute in H.
  destruct H as [H|[]]. discriminate.
Defined.

Lemma compare_data_run e st at_ dn ed dt em :
  match dt, details e with
  | Some _, None =>
      _compare_data e st at_ dn ed dt em
      = (Raise (TypeError "'NoneType' object is not iterable"), em)
  | _, _ =>
      ∃ modified : bool,
        (modified = true ↔ field_differs e st at_ dn ed dt)
        ∧ ∃ msgs,
            length msgs = (if modified then 1 else 0)
            ∧ _compare_data e st at_ dn ed dt em
              = (Ok modified,
                 with_hass (with_log (log (hass em) ++ msgs) (hass em)) em)
  end.
Proof.
  unfold _compare_data, field_differs, bind, lift, ret, logger, modify,
    _get_attributes_json.
  destruct dt as [t|], (details e) as [t0|] eqn:Hdt, ed as [d|]; simpl;
    repeat case_decide; simpl;
    try (match goal with
         | H : ¬ 0 < length _ |- _ =>
             exfalso; apply H; rewrite ?length_app; simpl; lia
         | H : 0 < length [] |- _ => simpl in H; lia
         end);
    try (eexists true; split; [split; [intros _; tauto | done]|];
         eexists [_]; split; [done|]; reflexivity);
    try (eexists false; split; [split; [done | intros ?; exfalso; tauto]|];
         exists []; split; [done|]; by rewrite with_log_nil);
    try done.
Qed.










(** X3: unless it has to iterate the missing details of the record,
    [_compare_data] returns; it answers [True] exactly when one of the fields
    it looks at differs, then writes one debug record, and otherwise leaves
    the manager untouched. *)
Theorem compare_data_modified e st at_ dn ed dt em :
  dt = None ∨ details e ≠ None →
  ∃ modified : bool,
    (_compare_data e st at_ dn ed dt em).1 = Ok modified
    ∧ (modified = true ↔ field_differs e st at_ dn ed dt)
    ∧ ∃ msgs,
        length msgs = (if modified then 1 else 0)
        ∧ (_compare_data e st at_ dn ed dt em).2
          = with_hass (with_log (log (hass em) ++ msgs) (hass em)) em.
Proof.
  intros Hd. pose proof (compare_data_run e st at_ dn ed dt em) as H.
  destruct dt as [t|], (details e) as [t0|];
    try (destruct H as (m & Hm & msgs & Hl & ->); by eauto 7).
  by destruct Hd.
Qed.

Lemma compare_data_modified_witness :
  (_compare_data (new_entity "camera" "entry" (PyStr "idle") ∅
                    (PyStr "Front door") front_door None)
     (PyStr "idle") ∅ (PyStr "Front door") (Some front_door) None em_created).2
  = em_created.
Proof.
  destruct (compare_data_modified
              (new_entity "camera" "entry" (PyStr "idle") ∅
                 (PyStr "Front door") front_door None)
              (PyStr "idle") ∅ (PyStr "Front door") (Some front_door) None
              em_created (or_introl eq_refl))
    as (modified & Hr & Hiff & msgs & Hlen & ->).
  destruct modified.
  - exfalso. destruct (proj1 Hiff eq_refl) as [H|[H|[H|[H|[]]]]];
      by apply H.
  - destruct msgs; [|discriminate]. apply with_log_nil.
Defined.

(** X4: [_compare_data] raises exactly when new details are given for a
    record whose details are [None]; it then raises [TypeError] and leaves the
    manager untouched. *)
Theorem compare_data_raises e st at_ dn ed dt em :
  ((∃ ex, (_compare_data e st at_ dn ed dt em).1 = Raise ex)
   ↔ is_Some dt ∧ details e = None)
  ∧ (is_Some dt → details e = None →
     _compare_data e st at_ dn ed dt em
     = (Raise (TypeError "'NoneType' object is not iterable"), em)).
Proof.
  pose proof (compare_data_run e st at_ dn ed dt em) as H.
  destruct dt as [t|], (details e) as [t0|];
    try (destruct H as (m & Hm & msgs & Hl & ->)); try rewrite H; simpl.
  - split; [|done]. split; [by intros [? [=]] | by intros [_ [=]]].
  - split; [|done]. split; [by eauto | by eauto].
  - split; [|by intros [? [=]]].
    split; [by intros [? [=]] | by intros [_ [=]]].
  - split; [|by intros [? [=]]].
    split; [by intros [? [=]] | by intros [[? [=]] _]].
Qed.

Lemma compare_data_raises_witness :
  _compare_data (new_entity "camera" "entry" (PyStr "idle") ∅
                   (PyStr "Front door") front_door None)
    (PyStr "idle") ∅ (PyStr "Front door") (Some front_door) (Some ∅) em_created
  = (Raise (TypeError "'NoneType' object is not iterable"), em_created).
Proof.
  apply (proj2 (compare_data_raises _ _ _ _ _ (Some ∅) em_created)).
  - by eexists.
  - reflexivity.
Defined.

Lemma length_set_absent {V} k (v : V) (d : pydict V) :
  PyDict.get k d = None → length (PyDict.set k v d) = S (length d).
Proof.
  induction d as [|[k' v'] r IH]; simpl; [done|].
  destruct (decide (k = k')); simpl; [done|]. intros H. by rewrite IH.
Qed.

(** What the second of two equal calls of [set_entity] makes of the record
    that the first one left. *)
Lemma after_twice st at_ dn dt ds modified modified' e :
  (modified = false → modified' = false) →
  let e3 := after_destructors ds
              (after_values st at_ dn dt (after_comparison modified e)) in
  after_destructors ds (after_values st at_ dn dt (after_comparison modified' e3))
  = e3.
Proof.
  intros Hm. unfold after_destructors, after_values, after_comparison.
  destruct e as [i d s a t n [] b o], modified, modified', (has_true ds);
    try (by specialize (Hm eq_refl)); by vm_compute.
Qed.

Lemma after_fields_differ st at_ dn d dt ds e :
  ¬ field_differs e st at_ dn (Some d) dt →
  ¬ field_differs
      (after_destructors ds (after_values st at_ dn dt (after_comparison false e)))
      st at_ dn (Some d) dt.
Proof.
  unfold field_differs, after_destructors, after_values, after_comparison.
  intros Hn Hd. apply Hn. clear Hn.
  destruct e as [i d0 s a t n [] b o], (has_true ds), dt as [t'|];
    simpl in *; try case_bool_decide; simpl in *; try tauto;
    try (match goal with H : _ ∈ _ |- _ => fail 1 end);
    repeat (match goal with
            | H : _ ∨ _ |- _ => destruct H as [H|H]
            end); try done; try tauto.
Qed.

Lemma compare_data_raise_again e st at_ dn ed dt em ex emc em' :
  _compare_data e st at_ dn ed dt em = (Raise ex, emc) →
  _compare_data e st at_ dn ed dt em'
  = (Raise (TypeError "'NoneType' object is not iterable"), em').
Proof.
  intros Hcmp.
  pose proof (compare_data_run e st at_ dn ed dt em) as H.
  pose proof (compare_data_run e st at_ dn ed dt em') as H'.
  rewrite Hcmp in H.
  destruct dt as [t|], (details e) as [t0|]; try done;
    by destruct H as (m & _ & msgs & _ & [=]).
Qed.

(** X5: reporting the same values twice is the same, for the mapping, as
    reporting them once. *)
Theorem set_entity_idempotent dom eid st at_ dn d dt ds em :
  entities
    (set_entity dom eid st at_ dn (Some d) dt ds
       (set_entity dom eid st at_ dn (Some d) dt ds em).2).2
  = entities (set_entity dom eid st at_ dn (Some d) dt ds em).2.
Proof.
  set (em1 := (set_entity dom eid st at_ dn (Some d) dt ds em).2).
  (* the second call, on a record [e3] that the first one left *)
  assert (Hsecond : ∀ e3 ents,
            entities em1 = PyDict.set (key d) e3 ents →
            (∀ modified',
               (¬ field_differs e3 st at_ dn (Some d) dt → modified' = false) →
               after_destructors ds
                 (after_values st at_ dn dt (after_comparison modified' e3))
               = e3) →
            entities (set_entity dom eid st at_ dn (Some d) dt ds em1).2
            = entities em1).
  { intros e3 ents Hent Hfix.
    assert (Hget1 : PyDict.get (key d) (entities em1) = Some e3)
      by (rewrite Hent; apply get_set_eq).
    destruct (_compare_data e3 st at_ dn (Some d) dt em1)
      as [[modified'|ex] em2] eqn:Hcmp.
    - destruct (set_entity_existing dom eid st at_ dn d dt ds em1 e3
                  modified' em2 Hget1 Hcmp) as [_ ->].
      rewrite Hfix; [by rewrite Hent, dict_set_set|].
      intros Hn. pose proof (compare_data_run e3 st at_ dn (Some d) dt em1) as H.
      rewrite Hcmp in H.
      destruct dt as [t|], (details e3) as [t0|]; try done;
        destruct H as (m & Hm & msgs & _ & [= -> _]);
        (destruct m; [exfalso; apply Hn, Hm; done | done]).
    - by destruct (set_entity_raise dom eid st at_ dn d dt ds em1 e3 ex em2
                     Hget1 Hcmp) as [-> ?]. }
  destruct (PyDict.get (key d) (entities em)) as [e|] eqn:Hget.
  - destruct (_compare_data e st at_ dn (Some d) dt em)
      as [[modified|ex] emc] eqn:Hcmp.
    + destruct (set_entity_existing dom eid st at_ dn d dt ds em e modified
                  emc Hget Hcmp) as [_ Hent]. fold em1 in Hent.
      apply (Hsecond _ _ Hent).
      intros modified' Hm'. apply after_twice. intros ->.
      apply Hm', after_fields_differ.
      pose proof (compare_data_run e st at_ dn (Some d) dt em) as H.
      rewrite Hcmp in H.
      destruct dt as [t|], (details e) as [t0|]; try done;
        destruct H as (m & Hm & msgs & _ & [= <- _]); intros Hd;
        by apply Hm in Hd.
    + destruct (set_entity_raise dom eid st at_ dn d dt ds em e ex emc
                  Hget Hcmp) as [Hrun Hent].
      assert (em1 = emc) as Hem1 by (unfold em1; by rewrite Hrun).
      assert (Hget1 : PyDict.get (key d) (entities em1) = Some e)
        by (by rewrite Hem1, Hent).
      pose proof (compare_data_raise_again e st at_ dn (Some d) dt em ex emc
                    em1 Hcmp) as Hcmp1.
      by destruct (set_entity_raise dom eid st at_ dn d dt ds em1 e _ em1
                     Hget1 Hcmp1) as [-> _].
  - destruct (set_entity_new dom eid st at_ dn d dt ds em Hget) as [_ Hent].
    fold em1 in Hent. destruct (has_true ds) eqn:Hds.
    + assert (Hget1 : PyDict.get (key d) (entities em1) = None)
        by (by rewrite Hent).
      destruct (set_entity_new dom eid st at_ dn d dt ds em1 Hget1) as [_ ->].
      by rewrite Hds.
    + apply (Hsecond _ _ Hent).
      intros modified' Hm'. rewrite Hm'.
      * unfold after_destructors, after_values, after_comparison. by rewrite Hds.
      * unfold field_differs, new_entity. simpl.
        destruct dt; intros [?|[?|[?|[?|?]]]]; done.
Qed.

Lemma elo_log_only {A} (c : M EntityManager A) :
  log_only c → entities_log_only c.
Proof.
  intros Hc em. destruct (Hc em) as [l ->]. exists l, (entities em).
  by destruct em.
Qed.

Lemma elo_modify_entities (f : EntityManager → pydict EntityData) :
  entities_log_only (modify (λ em, with_entities (f em) em)).
Proof.
  intros em. exists [], (f em). simpl. by rewrite with_log_nil.
Qed.

Lemma elo_bind {A B} (c : M EntityManager A) (k : A → M EntityManager B) :
  entities_log_only c → (∀ a, entities_log_only (k a)) →
  entities_log_only (bind c k).
Proof.
  intros Hc Hk em. unfold bind. destruct (Hc em) as (l & ents & Hl).
  destruct (c em) as [[a|ex] em1]; simpl in *; subst em1.
  - destruct (Hk a (with_entities ents
                      (with_hass (with_log (log (hass em) ++ l) (hass em)) em)))
      as (l' & ents' & ->).
    exists (l ++ l'), ents'. simpl. by rewrite app_assoc.
  - by exists l, ents.
Qed.

Lemma elo_assign k f : entities_log_only (assign k f).
Proof.
  intros em. unfold assign, modify. simpl.
  destruct (PyDict.get k (entities em)) as [e|].
  - eexists [], _. by rewrite with_log_nil.
  - exists [], (entities em). rewrite with_log_nil. by destruct em.
Qed.

Lemma elo_set_entity dom eid st at_ dn ed dt ds :
  entities_log_only (set_entity dom eid st at_ dn ed dt ds).
Proof.
  unfold set_entity, set_entity_resolve, set_entity_store, assign_entity.
  destruct ed as [d|]; [|apply elo_log_only, log_only_raise].
  repeat first
    [ apply elo_bind; [|intros ?]
    | apply elo_assign
    | apply elo_modify_entities
    | apply elo_log_only, compare_data_log_only
    | apply elo_log_only, log_only_ret
    | apply elo_log_only, log_only_logger
    | apply elo_log_only; intros em; exists []; simpl; by rewrite with_log_nil
    | case_match
    | case_decide ].
Qed.

(** X6: [set_entity] writes to the mapping of entities and to the log and to
    nothing else: the registered platforms and the host's registry, states,
    tasks, listeners and calls are as before.  It removes no key and adds at
    most one. *)
Theorem set_entity_frame dom eid st at_ dn ed dt ds em :
  (∃ msgs,
     hass (set_entity dom eid st at_ dn ed dt ds em).2
     = with_log (log (hass em) ++ msgs) (hass em))
  ∧ domain_component_manager (set_entity dom eid st at_ dn ed dt ds em).2
    = domain_component_manager em
  ∧ (∀ k, is_Some (get k em) →
          is_Some (get k (set_entity dom eid st at_ dn ed dt ds em).2))
  ∧ length (entities (set_entity dom eid st at_ dn ed dt ds em).2)
    ≤ S (length (entities em)).
Proof.
  destruct (elo_set_entity dom eid st at_ dn ed dt ds em) as (l & ents & Hem').
  split; [exists l; by rewrite Hem'|]. split; [by rewrite Hem'|].
  clear l ents Hem'. unfold get.
  destruct ed as [d|]; [|split; [done|simpl; lia]].
  destruct (PyDict.get (key d) (entities em)) as [e|] eqn:Hget.
  - destruct (_compare_data e st at_ dn (Some d) dt em)
      as [[modified|ex] emc] eqn:Hcmp.
    + destruct (set_entity_existing dom eid st at_ dn d dt ds em e modified
                  emc Hget Hcmp) as [_ ->].
      split.
      * intros k. rewrite get_set. case_decide; [by eauto|done].
      * rewrite length_set_present by eauto. lia.
    + destruct (set_entity_raise dom eid st at_ dn d dt ds em e ex emc
                  Hget Hcmp) as [-> Hent]. simpl. rewrite Hent.
      split; [done|lia].
  - destruct (set_entity_new dom eid st at_ dn d dt ds em Hget) as [_ ->].
    destruct (has_true ds); [split; [done|lia]|]. split.
    + intros k. rewrite get_set. case_decide; [by eauto|done].
    + by rewrite length_set_absent.
Qed.

Lemma set_entity_frame_witness :
  is_Some (get (key front_door)
             (set_entity "camera" "entry" (PyStr "idle") ∅ (PyStr "Back yard")
                (Some back_yard) None None em_ready).2).
Proof.
  apply (proj1 (proj2 (proj2 (set_entity_frame "camera" "entry" (PyStr "idle")
                                ∅ (PyStr "Back yard") (Some back_yard) None
                                None em_ready)))).
  vm_compute. by eexists.
Defined.

Lemma async_get_update_disabled eid reg :
  async_get (Some eid) (async_update_entity_disabled eid reg)
  = (λ e, {| re_entity_id := re_entity_id e; re_domain := re_domain e;
             re_platform := re_platform e; re_unique_id := re_unique_id e;
             re_disabled := true |}) <$> async_get (Some eid) reg.
Proof.
  unfold async_get, async_update_entity_disabled. simpl.
  induction reg as [|r reg IH]; simpl; [done|].
  destruct (decide (re_entity_id r = eid)) as [Heq|Hne]; simpl.
  - by rewrite !bool_decide_eq_true_2.
  - by rewrite bool_decide_eq_false_2.
Qed.

(** X7: when the entity has an entry in the host's registry,
    [_handle_disabled_entity] makes the two agree on whether it is disabled:
    an entity that is disabled gets its registry entry disabled, any other
    takes over the flag of its entry.  Without an entry nothing happens. *)
Theorem handle_disabled_agrees entity_id k e em :
  get k em = Some e →
  match async_get entity_id (entity_registry em), entity_id with
  | Some item, Some eid =>
      ∃ e' item',
        get k (_handle_disabled_entity entity_id k e em).2 = Some e'
        ∧ async_get entity_id
            (entity_registry (_handle_disabled_entity entity_id k e em).2)
          = Some item'
        ∧ disabled e' = re_disabled item'
        ∧ (if disabled e
           then e' = e ∧ re_disabled item' = true
           else e' = with_disabled (re_disabled item) e ∧ item' = item)
  | _, _ => _handle_disabled_entity entity_id k e em = (Ok tt, em)
  end.
Proof.
  unfold get. intros Hget. unfold _handle_disabled_entity, bind, get_state.
  destruct (async_get entity_id (entity_registry em)) as [item|] eqn:Hitem;
    [|done].
  destruct entity_id as [eid|]; [|done].
  destruct (disabled e) eqn:Hd.
  - unfold logger, set_registry, modify, entity_registry. simpl.
    pose proof (async_get_update_disabled eid (registry (hass em))) as Hupd.
    unfold entity_registry in Hitem. rewrite Hitem in Hupd.
    unfold async_get in Hupd. simpl in Hupd. rewrite Hupd.
    eexists _, _. by repeat split.
  - rewrite (assign_present _ _ _ _ Hget). simpl. rewrite get_set_eq.
    unfold entity_registry, async_get in *. simpl in *. rewrite Hitem.
    eexists _, _. by repeat split.
Qed.

Lemma handle_disabled_agrees_witness :
  ∃ e',
    get (key front_door)
      (_handle_disabled_entity (Some "camera.front_door") (key front_door)
         (new_entity "camera" "entry" (PyStr "idle") ∅ (PyStr "Front door")
            front_door None) em_registered).2 = Some e'
    ∧ disabled e' = true.
Proof.
  destruct (handle_disabled_agrees (Some "camera.front_door") (key front_door)
              (new_entity "camera" "entry" (PyStr "idle") ∅
                 (PyStr "Front door") front_door None) em_registered eq_refl)
    as (e' & item' & Hg & _ & _ & -> & _).
  eexists. split; [exact Hg|reflexivity].
Defined.

Lemma del_get_eq {V} k (d d' : pydict V) :
  NoDup (PyDict.keys d) → PyDict.del k d = Some d' → PyDict.get k d' = None.
Proof.
  unfold PyDict.keys. revert d'.
  induction d as [|[k0 v0] r IH]; simpl; intros d' Hnd Hd; [done|].
  apply NoDup_cons in Hnd as [Hnotin Hnd].
  destruct (decide (k = k0)) as [->|Hne].
  - injection Hd as <-.
    destruct (PyDict.get k0 r) as [v|] eqn:Hg; [|done].
    exfalso. apply Hnotin. apply (get_is_Some_keys k0 r). by eauto.
  - destruct (PyDict.del k r) as [r'|] eqn:Hr; simpl in Hd; [|done].
    injection Hd as <-. simpl. rewrite decide_False by done. by apply IH.
Qed.

Lemma async_get_found dom platform unique_id reg eid :
  async_get_entity_id dom platform unique_id reg = Some eid →
  is_Some (async_get (Some eid) reg).
Proof.
  unfold async_get_entity_id, async_get. simpl.
  induction reg as [|r reg IH]; simpl; [done|].
  case_bool_decide as Hm; simpl.
  - intros [= <-]. rewrite bool_decide_eq_true_2 by done. by eauto.
  - intros H. case_bool_decide; [by eauto|by apply IH].
Qed.

Lemma async_get_remove eid reg : async_get (Some eid) (async_remove eid reg) = None.
Proof.
  unfold async_get, async_remove, EntityRegistry in *. simpl.
  induction reg as [|r reg IH]; [done|].
  destruct (decide (re_entity_id r ≠ eid)) as [Hne|Heq].
  - rewrite filter_cons_True by done. simpl.
    by rewrite bool_decide_eq_false_2.
  - by rewrite filter_cons_False.
Qed.

(** What deleting one record does. *)
Lemma delete_component_effect k n em e :
  NoDup (PyDict.keys (entities em)) →
  get k em = Some e → status e = DELETED → id e = k →
  ∃ em',
    delete_component k n em = (Ok (n + 1), em')
    ∧ length (entities em) = S (length (entities em'))
    ∧ get k em' = None
    ∧ (∀ k', k ≠ k' → get k' em' = get k' em)
    ∧ domain_component_manager em' = domain_component_manager em
    ∧ match async_get_entity_id (domain e) DOMAIN k (entity_registry em) with
      | Some eid => async_get (Some eid) (entity_registry em') = None
      | None => entity_registry em' = entity_registry em
      end.
Proof.
  unfold get. intros Hnd Hget Hst Hid.
  destruct (del_is_Some k (entities em)) as [d' Hd']; [by eauto|].
  unfold delete_component. run. rewrite decide_True by done.
  rewrite Hid.
  destruct (async_get_entity_id (domain e) DOMAIN k (entity_registry em))
    as [eid|] eqn:Heid.
  - destruct (async_get_found _ _ _ _ _ Heid) as [item ->].
    simpl. rewrite Hd'. eexists. split; [reflexivity|]. simpl.
    split; [by eapply del_length|]. split; [by eapply del_get_eq|].
    split; [intros k' Hk'; by eapply del_get_ne|]. split; [done|].
    apply async_get_remove.
  - simpl. rewrite Hd'. eexists. split; [reflexivity|]. simpl.
    split; [by eapply del_length|]. split; [by eapply del_get_eq|].
    split; [intros k' Hk'; by eapply del_get_ne|]. done.
Qed.

Lemma delete_loop_first pre k post acc em e :
  (∀ k', k' ∈ pre → ∃ e', get k' em = Some e' ∧ status e' ≠ DELETED) →
  NoDup (PyDict.keys (entities em)) →
  get k em = Some e → status e = DELETED → id e = k →
  for_unique_id (length (entities em)) (pre ++ k :: post) delete_component
    acc em
  = (Raise (RuntimeError "dictionary changed size during iteration"),
     (delete_component k acc em).2).
Proof.
  intros Hpre Hnd Hget Hst Hid.
  induction pre as [|k0 pre IH]; simpl; rewrite decide_True by done;
    unfold bind.
  - destruct (delete_component_effect k acc em e Hnd Hget Hst Hid)
      as (em' & -> & Hlen & _).
    rewrite for_unique_id_size_changed; [done|]. rewrite Hlen. lia.
  - destruct (Hpre k0) as (e0 & Hg0 & Hs0); [apply list_elem_of_here|].
    rewrite (delete_component_skip k0 acc em e0 Hg0 Hs0).
    apply IH. intros k' Hk'. apply Hpre. by apply list_elem_of_further.
Qed.

(** X8: when records are DELETED, the delete phase removes the first of
    them in the order of the mapping, together with its registry entry, and
    nothing else: the iteration raises [RuntimeError] right after, and every
    other record, DELETED or not, is still in the mapping. *)
Theorem delete_components_first_only em pre k post e :
  PyDict.keys (entities em) = pre ++ k :: post →
  NoDup (PyDict.keys (entities em)) →
  (∀ k', k' ∈ pre → ∃ e', get k' em = Some e' ∧ status e' ≠ DELETED) →
  get k em = Some e → status e = DELETED → id e = k →
  (_async_delete_components em).1
  = Raise (RuntimeError "dictionary changed size during iteration")
  ∧ get k (_async_delete_components em).2 = None
  ∧ (∀ k', k ≠ k' →
       get k' (_async_delete_components em).2 = get k' em)
  ∧ match async_get_entity_id (domain e) DOMAIN k (entity_registry em) with
    | Some eid =>
        async_get (Some eid) (entity_registry (_async_delete_components em).2)
        = None
    | None =>
        entity_registry (_async_delete_components em).2 = entity_registry em
    end.
Proof.
  intros Hkeys Hnd Hpre Hget Hst Hid.
  unfold _async_delete_components, for_in_entities, bind.
  rewrite Hkeys, (delete_loop_first pre k post 0 em e) by done.
  destruct (delete_component_effect k 0 em e Hnd Hget Hst Hid)
    as (em' & -> & _ & Hk & Hothers & _ & Hreg).
  by simpl.
Qed.

Lemma delete_components_first_only_witness :
  get (key front_door) (_async_delete_components em_two_deleted).2 = None
  ∧ status <$> get (key back_yard) (_async_delete_components em_two_deleted).2
    = Some DELETED.
Proof.
  destruct (delete_components_first_only em_two_deleted [] (key front_door)
              [key back_yard]
              (default (EntityData_init "" front_door)
                 (get (key front_door) em_two_deleted)))
    as (_ & Hgone & Hothers & _).
  - vm_compute. reflexivity.
  - vm_compute. apply NoDup_cons. split.
    + intros H. apply elem_of_cons in H as [H|H]; [discriminate|].
      by apply elem_of_nil in H.
    + apply NoDup_cons. split; [by intros ?%elem_of_nil|apply NoDup_nil_2].
  - by intros k' ?%elem_of_nil.
  - vm_compute. reflexivity.
  - vm_compute. reflexivity.
  - vm_compute. reflexivity.
  - split; [exact Hgone|]. rewrite Hothers; [|vm_compute; discriminate].
    vm_compute. reflexivity.
Defined.

Lemma add_loop_nothing ks comps em :
  (∀ k, k ∈ ks → ∃ e, get k em = Some e ∧ status e ≠ CREATED) →
  for_unique_id (length (entities em)) ks add_component comps em
  = (Ok comps, em).
Proof.
  induction ks as [|k ks IH]; intros Hks; simpl; rewrite decide_True by done.
  - done.
  - destruct (Hks k) as (e & Hget & Hst); [apply list_elem_of_here|].
    unfold bind. rewrite (add_component_skip k comps em e Hget Hst).
    apply IH. intros k' Hk'. apply Hks. by apply list_elem_of_further.
Qed.

Lemma add_devices_nothing doms em :
  (∀ dom, dom ∈ doms →
          is_Some (PyDict.get dom (domain_component_manager em))) →
  for_each doms (add_devices []) em = (Ok tt, em).
Proof.
  induction doms as [|dom doms IH]; intros Hdoms; simpl; [done|].
  destruct (Hdoms dom) as [dm Hdm]; [apply list_elem_of_here|].
  unfold bind. unfold add_devices at 1. unfold bind, get_state.
  rewrite Hdm. simpl.
  apply IH. intros d Hd. apply Hdoms. by apply list_elem_of_further.
Qed.

(** X9: a pass over a mapping in which no record is CREATED or DELETED
    writes its opening debug record and does nothing else: no record changes
    (an UPDATED record stays UPDATED), no platform code is called, nothing is
    logged as an error. *)
Theorem pass_without_work em :
  (∀ k e, get k em = Some e → status e ≠ CREATED ∧ status e ≠ DELETED) →
  _async_update em = (Ok tt, (logger DebugStartUpdate em).2).
Proof.
  intros Hst. unfold _async_update. unfold bind at 1.
  set (em0 := (logger DebugStartUpdate em).2).
  change (logger DebugStartUpdate em) with (@Ok exn _ tt, em0).
  assert (Hget0 : ∀ k, get k em0 = get k em) by done.
  assert (Hadd : _async_add_components em0 = (Ok tt, em0)).
  { unfold _async_add_components, try_except, _async_add_components_body.
    unfold bind at 1. unfold for_in_entities.
    rewrite add_loop_nothing.
    - unfold bind, get_state. rewrite add_devices_nothing; [done|].
      intros dom Hdom. by apply get_is_Some_keys.
    - intros k Hk. apply get_is_Some_keys in Hk as [e He].
      exists e. split; [done|]. by apply (Hst k e). }
  unfold try_except, bind. rewrite Hadd.
  rewrite delete_components_nothing; [done|].
  intros k e He. by apply (Hst k e).
Qed.

Lemma pass_without_work_witness :
  entities (_async_update em_ready).2 = entities em_ready.
Proof.
  rewrite pass_without_work; [reflexivity|].
  assert (entities em_ready
          = [(key front_door,
              with_status READY
                (new_entity "camera" "entry" (PyStr "idle") ∅
                   (PyStr "Front door") front_door None))]) as Hent
    by (vm_compute; reflexivity).
  intros k e. unfold get. rewrite Hent. simpl.
  case_decide; [|discriminate]. intros [= <-]. split; discriminate.
Defined.

(** * Further properties of the Home Assistant manager *)

Section HomeAssistantManagerMore.
Context {Action : Type}.
Implicit Types (m : HomeAssistantManager Action).

(** The manager with one more record in the log. *)
Lemma on_entity_manager_logger r m :
  on_entity_manager (logger r) m
  = (Ok tt,
     with_entity_manager
       (with_hass (with_log (log (_hass m) ++ [r]) (_hass m))
          (_entity_manager m)) m).
Proof. done. Qed.

(** X10: an update that starts ends in one of two ways.  Either
    [async_update] returns with [_is_updating] False again, an [Exception]
    of the data providers having been logged; or the task is cancelled:
    [CancelledError] thrown at the [await] of the data providers passes
    [except Exception], leaves the method, and the manager stays as the
    data providers left it, [_is_updating] included. *)
Theorem async_update_returns (hooks : ManagerHooks Action) event_time m :
  _is_initialized m = true → _is_updating m = false →
  let m0 :=
    with_is_updating true
      (on_entity_manager (logger (DebugUpdating event_time)) m).2 in
  (∀ (ex : exn) m1,
     async_update_data_providers m0 = (Raise (Exception ex), m1) →
     async_update event_time m
     = (Ok tt,
        with_is_updating false
          (on_entity_manager (logger (ErrorAsyncUpdate ex)) m1).2))
  ∧ (∀ m1,
       async_update_data_providers m0 = (Raise CancelledError, m1) →
       async_update event_time m = (Raise CancelledError, m1))
  ∧ ((async_update event_time m).1 = Ok tt
     ∧ _is_updating (async_update event_time m).2 = false
     ∨ (async_update event_time m).1 = Raise CancelledError).
Proof.
  intros Hini Hupd m0. subst m0.
  unfold async_update, bind, get_state, try_except_Exception, modify, ret.
  rewrite Hini. simpl. rewrite Hupd. simpl.
  destruct (async_update_data_providers _) as [[[]|[ex|]] m1] eqn:Hprov.
  - split; [by intros ? ? [=]|]. split; [by intros ? [=]|].
    destruct (manager_update m1) as [[[]|[ex|]] m2]; simpl;
      [by left | by left | by right].
  - simpl. split; [by intros ? ? [= <- <-]|]. split; [by intros ? [=]|].
    by left.
  - simpl. split; [by intros ? ? [=]|]. split; [by intros ? [= <-]|].
    by right.
Qed.

(** X11: while an update is running, [async_update] only logs that it skips:
    no overridable method is called, nothing is scheduled, and
    [_is_updating] stays set. *)
Theorem async_update_skips (hooks : ManagerHooks Action) event_time m :
  _is_initialized m = true → _is_updating m = true →
  async_update event_time m
  = on_entity_manager (logger (DebugSkipUpdating event_time)) m
  ∧ _is_updating (async_update event_time m).2 = true
  ∧ tasks (_hass (async_update event_time m).2) = tasks (_hass m)
  ∧ ∀ hooks' : ManagerHooks Action,
      @async_update _ hooks' event_time m = @async_update _ hooks event_time m.
Proof.
  intros Hini Hupd.
  assert (∀ h : ManagerHooks Action,
            @async_update _ h event_time m
            = on_entity_manager (logger (DebugSkipUpdating event_time)) m)
    as Heq.
  { intros h. unfold async_update, bind, get_state, try_except_Exception.
    rewrite Hini. simpl. by rewrite Hupd. }
  rewrite !Heq. split; [done|]. split; [done|]. split; [done|].
  intros h. by rewrite Heq.
Qed.

(** X12: [update] does not release its lock when [load_devices] raises: the
    exception leaves the method with the manager as [load_devices] left it,
    and as long as the lock is held every later [update] does nothing. *)
Theorem update_lock_held (hooks : ManagerHooks Action) m ex m1 :
  _update_lock m = false →
  load_devices (with_update_lock true m) = (Raise ex, m1) →
  manager_update m = (Raise ex, m1)
  ∧ (_update_lock m1 = true →
     ∀ hooks' : ManagerHooks Action, @manager_update _ hooks' m1 = (Ok tt, m1)).
Proof.
  intros Hlock Hload. split.
  - unfold manager_update, bind, get_state, modify. rewrite Hlock.
    by rewrite Hload.
  - intros Hheld hooks'. unfold manager_update, bind, get_state.
    by rewrite Hheld.
Qed.

(** X13: when the two loaders return, [update] schedules the reconciliation
    pass and then the dispatch, in this order, and releases the lock; the
    pass itself has not run when [update] returns. *)
Theorem update_schedules (hooks : ManagerHooks Action) m m1 m2 :
  _update_lock m = false →
  load_devices (with_update_lock true m) = (Ok tt, m1) →
  load_entities m1 = (Ok tt, m2) →
  (manager_update m).1 = Ok tt
  ∧ tasks (_hass (manager_update m).2)
    = tasks (_hass m2) ++ [TaskEntityManagerUpdate; TaskDispatchAll]
  ∧ _update_lock (manager_update m).2 = false
  ∧ entities (_entity_manager (manager_update m).2)
    = entities (_entity_manager m2)
  ∧ log (_hass (manager_update m).2) = log (_hass m2).
Proof.
  intros Hlock Hdev Hent.
  unfold manager_update, bind, get_state, modify. rewrite Hlock.
  rewrite Hdev, Hent. simpl. by rewrite <-app_assoc.
Qed.

End HomeAssistantManagerMore.

Lemma async_update_returns_witness :
  @async_update _ cancelled_hooks 0 ha_running
  = (Raise CancelledError,
     with_is_updating true
       (on_entity_manager (logger (DebugUpdating 0)) ha_running).2).
Proof.
  apply (proj1 (proj2 (async_update_returns cancelled_hooks 0 ha_running
                         eq_refl eq_refl)) _ eq_refl).
Defined.

Lemma update_lock_held_witness :
  @manager_update _ failing_hooks ha_running
  = (Raise (Exception (HostError "connection lost")),
     with_update_lock true ha_running).
Proof.
  apply (proj1 (update_lock_held failing_hooks ha_running
                  (Exception (HostError "connection lost"))
                  (with_update_lock true ha_running) eq_refl eq_refl)).
Defined.

Lemma async_update_skips_witness :
  tasks (_hass (@async_update _ base_hooks 0
                  (with_is_updating true ha_running)).2) = [].
Proof.
  apply (proj1 (proj2 (proj2 (async_update_skips base_hooks 0
                                (with_is_updating true ha_running)
                                eq_refl eq_refl)))).
Defined.

Lemma update_schedules_witness :
  tasks (_hass (@manager_update _ base_hooks ha_running).2)
  = [TaskEntityManagerUpdate; TaskDispatchAll].
Proof.
  apply (proj1 (proj2 (update_schedules base_hooks ha_running
                         (with_update_lock true ha_running)
                         (with_update_lock true ha_running)
                         eq_refl eq_refl eq_refl))).
Defined.

Lemma dict_get_elem_of {V} k (v : V) (d : pydict V) :
  NoDup (PyDict.keys d) → (k, v) ∈ d → PyDict.get k d = Some v.
Proof.
  unfold PyDict.keys.
  induction d as [|[k0 v0] r IH]; simpl; intros Hnd Hin;
    [by apply elem_of_nil in Hin|].
  apply NoDup_cons in Hnd as [Hnotin Hnd].
  apply elem_of_cons in Hin as [[= -> ->]|Hin].
  - by rewrite decide_True.
  - rewrite decide_False; [by apply IH|].
    intros ->. apply Hnotin. apply list_elem_of_fmap. by exists (k0, v).
Qed.

Section HomeAssistantManagerHost.
Context {Action : Type}.
Implicit Types (m : HomeAssistantManager Action).

(** The manager after the host was handed the signals [l]. *)
Lemma dispatch_loop PLATFORMS (l : pydict string) m :
  NoDup (PyDict.keys PLATFORMS) →
  (∀ kv, kv ∈ l → kv ∈ PLATFORMS) →
  ∃ m',
    for_each (PyDict.keys l)
      (λ dom,
         match PyDict.get dom PLATFORMS with
         | Some signal =>
             on_hass (λ h, (tt, with_signals (signals h ++ [signal]) h))
         | None => ret tt
         end) m = (Ok tt, m')
    ∧ signals (_hass m') = signals (_hass m) ++ l.*2
    ∧ entities (_entity_manager m') = entities (_entity_manager m)
    ∧ tasks (_hass m') = tasks (_hass m)
    ∧ log (_hass m') = log (_hass m).
Proof.
  intros Hnd. revert m. induction l as [|[k v] l IH]; intros m Hl; simpl.
  - exists m. by rewrite app_nil_r.
  - rewrite (dict_get_elem_of k v PLATFORMS Hnd)
      by (apply Hl, list_elem_of_here).
    unfold bind at 1. simpl.
    match goal with |- context [for_each _ _ ?s] =>
      destruct (IH s) as (m' & -> & Hs & He & Ht & Hl') end.
    { intros kv Hkv. apply Hl. by apply list_elem_of_further. }
    exists m'. split; [done|]. simpl in *.
    rewrite Hs, <-app_assoc. done.
Qed.

(** X14: once the manager is initialized, [dispatch_all] sends the signal of
    every platform, in the order of [PLATFORMS], and touches nothing else;
    before that it sends none. *)
Theorem dispatch_all_signals PLATFORMS m :
  NoDup (PyDict.keys PLATFORMS) →
  (dispatch_all PLATFORMS m).1 = Ok tt
  ∧ signals (_hass (dispatch_all PLATFORMS m).2)
    = signals (_hass m) ++ (if _is_initialized m then PLATFORMS.*2 else [])
  ∧ entities (_entity_manager (dispatch_all PLATFORMS m).2)
    = entities (_entity_manager m)
  ∧ tasks (_hass (dispatch_all PLATFORMS m).2) = tasks (_hass m).
Proof.
  intros Hnd. unfold dispatch_all, bind, get_state.
  destruct (_is_initialized m); simpl.
  - destruct (dispatch_loop PLATFORMS PLATFORMS m Hnd)
      as (m' & -> & Hs & He & Ht & _); [done|]. by simpl.
  - by rewrite app_nil_r.
Qed.

Lemma remove_loop (handlers : list nat) m :
  ∃ m',
    for_each handlers
      (λ handler, on_hass (λ h, (tt, remove_listener handler h))) m
    = (Ok tt, m')
    ∧ time_listeners (_hass m')
      = filter (λ l, l.1 ∉ handlers) (time_listeners (_hass m))
    ∧ next_listener (_hass m') = next_listener (_hass m)
    ∧ _async_track_time_handlers m' = _async_track_time_handlers m
    ∧ entities (_entity_manager m') = entities (_entity_manager m)
    ∧ log (_hass m') = log (_hass m)
    ∧ _entry m' = _entry m.
Proof.
  revert m. induction handlers as [|handler handlers IH]; intros m; simpl.
  - exists m. split; [done|]. split; [|done].
    induction (time_listeners (_hass m)) as [|l ls IHl]; [done|].
    rewrite filter_cons_True by apply not_elem_of_nil. by f_equal.
  - unfold bind at 1. simpl.
    match goal with |- context [for_each _ _ ?s] =>
      destruct (IH s) as (m' & -> & Hl & Hn & Hh & He & Hlog & Hen) end.
    exists m'. split; [done|]. simpl in *. rewrite Hl.
    split; [|done]. rewrite list_filter_filter. apply list_filter_iff.
    intros [n cb]. simpl. rewrite not_elem_of_cons. tauto.
Qed.

(** X15: [async_unload] calls the remove callback of every tracked
    registration and empties the list: when the data providers are stopped no
    tracked listener is registered any more, listeners that the manager did
    not track are untouched, and the entities are still there. *)
Theorem async_unload_removes (hooks : ManagerHooks Action) m :
  ∃ m1,
    async_unload m = async_stop_data_providers m1
    ∧ _async_track_time_handlers m1 = []
    ∧ (∀ l, l ∈ time_listeners (_hass m1)
            ↔ l ∈ time_listeners (_hass m)
              ∧ l.1 ∉ _async_track_time_handlers m)
    ∧ entities (_entity_manager m1) = entities (_entity_manager m)
    ∧ log (_hass m1) = log (_hass m) ++ [InfoStopped].
Proof.
  unfold async_unload. unfold bind at 1. rewrite on_entity_manager_logger.
  unfold bind at 1. unfold get_state at 1. unfold bind at 1.
  match goal with |- context [for_each ?hs _ ?s] =>
    destruct (remove_loop hs s) as (m' & -> & Hl & _ & _ & He & Hlog & _) end.
  unfold bind, modify, _hass in *. simpl in *.
  eexists. split; [reflexivity|]. simpl.
  split; [done|]. split; [|by rewrite He, Hlog].
  intros l. rewrite Hl, list_elem_of_filter. tauto.
Qed.

End HomeAssistantManagerHost.

Lemma dispatch_all_signals_witness :
  signals (_hass (dispatch_all [("camera", "shinobi_camera_signal");
                              ("select", "shinobi_select_signal")]
                    ha_running).2)
  = ["shinobi_camera_signal"; "shinobi_select_signal"].
Proof.
  refine (proj1 (proj2 (dispatch_all_signals
                          [("camera", "shinobi_camera_signal");
                           ("select", "shinobi_select_signal")] ha_running _))).
  apply NoDup_cons. split.
  - intros H. apply elem_of_cons in H as [H|H]; [discriminate|].
    by apply elem_of_nil in H.
  - apply NoDup_cons. split; [by intros ?%elem_of_nil|apply NoDup_nil_2].
Defined.

Lemma filter_registered (tl reg : list (nat * (Callback * Z))) n :
  (∀ h cb, (h, cb) ∈ tl → h < n) →
  (∀ h, h ∈ reg.*1 → n ≤ h) →
  filter (λ l, l.1 ∉ reg.*1) (tl ++ reg) = tl.
Proof.
  intros Htl Hreg. rewrite filter_app.
  assert (filter (λ l : nat * (Callback * Z), l.1 ∉ reg.*1) reg = []) as ->.
  { assert (∀ r, r ⊆ reg →
              filter (λ l : nat * (Callback * Z), l.1 ∉ reg.*1) r = []) as H.
    { induction r as [|x r IH]; intros Hsub; [done|].
      rewrite filter_cons_False.
      - apply IH. intros y Hy. apply Hsub. by apply list_elem_of_further.
      - intros Hn. apply Hn. apply list_elem_of_fmap. exists x.
        split; [done|]. apply Hsub, list_elem_of_here. }
    by apply H. }
  rewrite app_nil_r.
  induction tl as [|[h cb] tl IH]; [done|].
  rewrite filter_cons_True.
  - f_equal. apply IH. intros h' cb' Hin. apply (Htl h' cb').
    by apply list_elem_of_further.
  - simpl. intros Hin. apply Hreg in Hin.
    pose proof (Htl h cb (list_elem_of_here _ _)). lia.
Qed.

Section HomeAssistantManagerRoundTrip.
Context {Action : Type}.
Implicit Types (m : HomeAssistantManager Action).

(** X16: in the base class, what [async_update_entry] registers without a
    config entry is what [async_unload] removes: for a manager that tracks
    nothing yet, the two calls in a row leave the host's listeners as they
    were and the list of handlers empty, and neither call raises. *)
Theorem track_then_unload m entry :
  handles_fresh (_hass m) →
  _async_track_time_handlers m = [] →
  _entry m = Some entry →
  (@async_update_entry _ base_hooks None m).1 = Ok tt
  ∧ (@async_unload _ base_hooks (@async_update_entry _ base_hooks None m).2).1
    = Ok tt
  ∧ time_listeners
      (_hass (@async_unload _ base_hooks
                (@async_update_entry _ base_hooks None m).2).2)
    = time_listeners (_hass m)
  ∧ _async_track_time_handlers
      (@async_unload _ base_hooks
         (@async_update_entry _ base_hooks None m).2).2 = [].
Proof.
  intros Hfresh Hh He.
  destruct m as [ini upd scan hb en [[reg sts lg tsk tl nl sg cl] dcm ents]
                   handlers lh lock acts].
  simpl in Hh, He. subst handlers en. unfold handles_fresh in Hfresh.
  simpl in Hfresh.
  destruct hb as [interval|].
  - unfold async_update_entry, async_unload, bind, get_state, modify, on_hass,
      on_entity_manager, async_track_time_interval, ret, base_hooks,
      remove_listener, _hass, logger.
    simpl. split; [done|]. split; [done|]. split; [|done].
    rewrite list_filter_filter, <-app_assoc. simpl.
    rewrite <-(filter_registered tl
                 [(nl, (CbUpdateEntities, scan));
                  (S nl, (CbSendHeartbeat, interval))] nl) at 2.
    + apply list_filter_iff. intros [h cb]. simpl.
      rewrite !not_elem_of_cons. split; [|tauto].
      intros [? ?]. split; [done|]. split; [done|]. apply not_elem_of_nil.
    + done.
    + intros h Hin. simpl in Hin.
      apply elem_of_cons in Hin as [->|Hin]; [lia|].
      apply elem_of_cons in Hin as [->|Hin]; [lia|].
      by apply elem_of_nil in Hin.
  - unfold async_update_entry, async_unload, bind, get_state, modify, on_hass,
      on_entity_manager, async_track_time_interval, ret, base_hooks,
      remove_listener, _hass, logger.
    simpl. split; [done|]. split; [done|]. split; [|done].
    rewrite <-(filter_registered tl [(nl, (CbUpdateEntities, scan))] nl) at 2.
    + apply list_filter_iff. intros [h cb]. simpl.
      rewrite !not_elem_of_cons. split; [|tauto].
      intros ?. split; [done|]. apply not_elem_of_nil.
    + done.
    + intros h Hin. simpl in Hin.
      apply elem_of_cons in Hin as [->|Hin]; [lia|].
      by apply elem_of_nil in Hin.
Qed.

End HomeAssistantManagerRoundTrip.

Lemma track_then_unload_witness :
  time_listeners
    (_hass (@async_unload _ base_hooks
              (@async_update_entry _ base_hooks None ha_running).2).2) = [].
Proof.
  refine (proj1 (proj2 (proj2 (track_then_unload ha_running
                          {| ce_entry_id := "entry"; ce_title := "Shinobi" |}
                          _ eq_refl eq_refl)))).
  intros handle cb Hin. vm_compute in Hin. by apply elem_of_nil in Hin.
Defined.

Section HelpersFacts.
Context {Manager : Type}.
Implicit Types (h : HassData Manager) (mgr : Manager).

(** X17: [async_set_ha] never raises.  When the manager was built and
    initialized, [get_ha] returns it for the entry afterwards, answers as
    before for every other entry, and nothing is logged. *)
Theorem get_ha_async_set_ha h entry_id mgr :
  (async_set_ha entry_id (Ok mgr) h).1 = Ok tt
  ∧ get_ha entry_id (async_set_ha entry_id (Ok mgr) h).2 = Some mgr
  ∧ (∀ other, other ≠ entry_id →
       get_ha other (async_set_ha entry_id (Ok mgr) h).2 = get_ha other h)
  ∧ ha_errors (async_set_ha entry_id (Ok mgr) h).2 = ha_errors h.
Proof.
  unfold async_set_ha, try_except_Exception, bind, lift, get_state,
    ensure_data, modify, raise, ret, get_ha.
  destruct h as [[data|] errs]; simpl.
  - split; [done|]. split; [by rewrite lookup_insert_eq|].
    split; [|done]. intros other Hne. by rewrite lookup_insert_ne.
  - split; [done|]. split; [by rewrite lookup_insert_eq|].
    split; [|done]. intros other Hne. by rewrite lookup_insert_ne.
Qed.

(** X18: when building or initializing the manager raises an [Exception],
    [async_set_ha] still returns: the exception is logged, and [get_ha]
    answers for every entry as it did before the call.  When the task is
    cancelled at the [await] of [async_init], [CancelledError] leaves
    [async_set_ha]: nothing is logged and [get_ha] answers as before. *)
Theorem async_set_ha_failure h entry_id :
  (∀ ex : exn,
     (async_set_ha entry_id (Raise (Exception ex)) h).1 = Ok tt
     ∧ (∀ other,
          get_ha other (async_set_ha entry_id (Raise (Exception ex)) h).2
          = get_ha other h)
     ∧ ha_errors (async_set_ha entry_id (Raise (Exception ex)) h).2
       = ha_errors h ++ [ex])
  ∧ (async_set_ha entry_id (Raise CancelledError) h).1 = Raise CancelledError
  ∧ (∀ other,
       get_ha other (async_set_ha entry_id (Raise CancelledError) h).2
       = get_ha other h)
  ∧ ha_errors (async_set_ha entry_id (Raise CancelledError) h).2
    = ha_errors h.
Proof.
  unfold async_set_ha, try_except_Exception, bind, lift, get_state,
    ensure_data, modify, raise, ret, get_ha.
  by destruct h as [[data|] errs].
Qed.

(** X19: [clear_ha] on an entry that [get_ha] finds removes it: the call
    returns, [get_ha] then gives [None] for the entry and answers as before
    for every other one. *)
Theorem clear_ha_get_ha h entry_id mgr :
  get_ha entry_id h = Some mgr →
  (clear_ha entry_id h).1 = Ok tt
  ∧ get_ha entry_id (clear_ha entry_id h).2 = None
  ∧ ∀ other, other ≠ entry_id →
      get_ha other (clear_ha entry_id h).2 = get_ha other h.
Proof.
  unfold clear_ha, bind, get_state, ensure_data, modify, raise, ret, get_ha.
  destruct h as [[data|] errs]; simpl; [|by rewrite lookup_empty].
  intros Hget. rewrite Hget. simpl.
  split; [done|]. split; [by rewrite lookup_delete_eq|].
  intros other Hne. by rewrite lookup_delete_ne.
Qed.

(** X20: [clear_ha] on an entry that [get_ha] does not find raises
    [KeyError] with the entry id; by then the dictionary of managers exists
    in [hass.data], and [get_ha] answers as before. *)
Theorem clear_ha_unregistered h entry_id :
  get_ha entry_id h = None →
  (clear_ha entry_id h).1 = Raise (KeyError entry_id)
  ∧ ha_data (clear_ha entry_id h).2 = Some (default ∅ (ha_data h))
  ∧ ∀ other, get_ha other (clear_ha entry_id h).2 = get_ha other h.
Proof.
  unfold clear_ha, bind, get_state, ensure_data, modify, raise, ret, get_ha.
  destruct h as [[data|] errs]; simpl.
  - intros Hget. by rewrite Hget.
  - intros _. by rewrite lookup_empty.
Qed.

End HelpersFacts.

Lemma clear_ha_get_ha_witness :
  get_ha "entry"
    (clear_ha "entry"
       (async_set_ha "entry" (Ok ha_running)
          {| ha_data := None; ha_errors := [] |}).2).2 = None.
Proof.
  exact (proj1 (proj2 (clear_ha_get_ha
                         (async_set_ha "entry" (Ok ha_running)
                            {| ha_data := None; ha_errors := [] |}).2
                         "entry" ha_running eq_refl))).
Defined.

Lemma clear_ha_unregistered_witness :
  (clear_ha "entry"
     ({| ha_data := None; ha_errors := [] |}
        : HassData (HomeAssistantManager string))).1
  = Raise (KeyError "entry").
Proof.
  exact (proj1 (clear_ha_unregistered
                  ({| ha_data := None; ha_errors := [] |}
                     : HassData (HomeAssistantManager string))
                  "entry" eq_refl)).
Defined.

(** A string is not its own extension by a non-empty suffix. *)
Lemma append_ne (s t : string) : t ≠ EmptyString → s ≠ s +:+ t.
Proof.
  intros Ht. induction s as [|a s IH]; simpl.
  - done.
  - intros Heq. injection Heq as Heq. by apply IH.
Qed.

Lemma timestamped_ne (url now : string) : url ≠ url +:+ "?ts=" +:+ now.
Proof. by apply append_ne. Qed.

(** X21: when the template does not render, or the request for the
    timestamped URL times out or fails, [async_camera_image] returns the last
    image and leaves the camera's last URL and last image as they were. *)
Theorem camera_image_failure render now fetch cam :
  (∀ url bytes, render = RenderedUrl url →
     fetch (url +:+ "?ts=" +:+ now) ≠ Image bytes) →
  (async_camera_image render now fetch cam).1.1 = _last_image cam
  ∧ (async_camera_image render now fetch cam).1.2 = cam.
Proof.
  intros Hfail. unfold async_camera_image.
  destruct render as [url|]; [|done].
  destruct (bool_decide (Some url = _last_url cam) && _limit_refetch cam);
    [done|].
  destruct (fetch (url +:+ "?ts=" +:+ now)) as [bytes| |] eqn:Hf; [|done..].
  by destruct (Hfail url bytes eq_refl).
Qed.

Lemma camera_image_failure_witness :
  (async_camera_image (RenderedUrl "http://nvr/front.jpg") "1" (λ _, TimeoutError)
     {| cam_name := "Front door"; _limit_refetch := true;
        _last_url := None; _last_image := None |}).1.1 = None.
Proof.
  refine (proj1 (camera_image_failure _ _ _ _ _)).
  intros url bytes _. discriminate.
Defined.

(** X22: the URL that [async_camera_image] remembers after a fetch carries
    the timestamp, so it never equals what the template renders: when a call
    has fetched an image, the next call that renders the same URL requests it
    again, also with [_limit_refetch] set, and returns what that request
    gives. *)
Theorem camera_image_refetches url now1 now2 fetch1 fetch2 cam bytes1 bytes2 :
  _last_url cam ≠ Some url →
  fetch1 (url +:+ "?ts=" +:+ now1) = Image bytes1 →
  fetch2 (url +:+ "?ts=" +:+ now2) = Image bytes2 →
  let cam1 := (async_camera_image (RenderedUrl url) now1 fetch1 cam).1.2 in
  _last_url cam1 = Some (url +:+ "?ts=" +:+ now1)
  ∧ (async_camera_image (RenderedUrl url) now2 fetch2 cam1).1.1 = Some bytes2.
Proof.
  intros Hlast Hf1 Hf2. simpl. unfold async_camera_image.
  rewrite (bool_decide_eq_false_2 (Some url = _last_url cam)) by done.
  simpl. rewrite Hf1. simpl. split; [done|].
  rewrite bool_decide_eq_false_2.
  - simpl. by rewrite Hf2.
  - intros [= Heq]. by apply timestamped_ne in Heq.
Qed.

Lemma camera_image_refetches_witness :
  (async_camera_image (RenderedUrl "http://nvr/front.jpg") "2"
     (λ _, Image [Byte.x02])
     (async_camera_image (RenderedUrl "http://nvr/front.jpg") "1"
        (λ _, Image [Byte.x01])
        {| cam_name := "Front door"; _limit_refetch := true;
           _last_url := None; _last_image := None |}).1.2).1.1
  = Some [Byte.x02].
Proof.
  refine (proj2 (camera_image_refetches "http://nvr/front.jpg" "1" "2"
                   (λ _, Image [Byte.x01]) (λ _, Image [Byte.x02])
                   {| cam_name := "Front door"; _limit_refetch := true;
                      _last_url := None; _last_image := None |}
                   [Byte.x01] [Byte.x02] _ eq_refl eq_refl)).
  discriminate.
Defined.
